(** * Promo-request feasibility simulator: [simulate_request] of src/app.py

    A shallow embedding of the scenario simulator (src/app.py, lines 311-456)
    and the properties of its allocation loop, material check and verdict.

    Conventions of the embedding.
    - A pandas DataFrame is the list of its rows, in row order; a boolean-mask
      selection [df[mask]] is [filter]; [Series.unique()] keeps the first
      occurrence of every value, in order of appearance; [Series.sum()] is the
      sum of the column, 0 on an empty selection.
    - Case quantities and capacities are Python integers: [Z], not bounded.
    - A [datetime.date] is its proleptic Gregorian ordinal ([date.toordinal()]),
      so that the day after [d] is [d + 1] and [<=] on dates is [<=] on [Z].
    - [qty_per_case], [on_hand_qty] and [hours_needed] are float64 columns:
      binary64 floats ([PrimFloat.float]) with the IEEE operations of the
      source ([*], [-], [>]).  A missing cell is [None]; a NaN cell is null
      for [pd.notnull] as well.
    - A Python [str] is the string of the bytes of its UTF-8 encoding, so
      that comparing bytes compares code points and a character is a byte
      that is not a continuation byte, with the continuation bytes after it.
    - The strings built by the f-strings of the source are kept as structured
      values ([blocker], [message]) that carry the interpolated values; the
      thousands separators and the [.0f] rounding of the rendering are
      presentation only.  The text of a Gantt bar is built as the source
      builds it.
    - [pd.to_datetime(due_date_str).date()] is library code: it is a parameter
      of the development, returning [None] where pandas raises. *)

From Stdlib Require Import ZArith QArith List Bool String Ascii Lia.
From Stdlib Require Import Sorted Permutation.
From Stdlib Require SpecFloat FloatOps DecimalString.
From Stdlib Require Import PrimFloat.
Import ListNotations.
Local Open Scope Z_scope.

(** ** Data model: one module per table read by [load_master_data_for_sim] *)

Definition date := Z.

Module Schedule.
Record row := mk {
  line_id : Z;
  production_date : date;
  product_id : Z;
  planned_qty_cases : Z;
  is_firm : bool
}.
End Schedule.

Module Lines.
Record row := mk {
  line_id : Z;
  line_name : string;
  daily_capacity_cases : Z
}.
End Lines.

Module Capability.
Record row := mk {
  line_id : Z;
  product_id : Z;
  rate_cases_per_hour : Q
}.
End Capability.

Module Bom.
Record row := mk {
  product_id : Z;
  material_id : Z;
  qty_per_case : float;
  material_name : string;
  supplier_lead_time_days : Z
}.
End Bom.

Module Inventory.
Record row := mk {
  material_id : Z;
  on_hand_qty : option float
}.
End Inventory.

(** The dict returned by [load_master_data_for_sim] (the "products" table is
    not read by the simulator). *)
Record Data := mkData {
  schedule : list Schedule.row;
  lines : list Lines.row;
  capability : list Capability.row;
  bom : list Bom.row;
  inventory : list Inventory.row
}.

(** One element of [plan_rows]. *)
Module Plan.
Record row := mk {
  line_id : Z;
  production_date : date;
  allocated_cases : Z;
  used_headroom : Z;
  bumped_flexible : Z
}.
End Plan.

(** The notes appended to [material_blockers] and [capacity_blockers]. *)
Inductive blocker : Type :=
| NoLineCanRun          (* "No line can run this product" *)
| NoCapableLineFound    (* "No capable line found" *)
| NoBomForSku           (* "No BOM for this SKU." *)
| ShortBy (material_name : string) (shortage : float) (lead_time_days : Z)
                        (* f"{material_name} short by {shortage:,.0f} (lead {lead}d)" *)
| ShortCases (remaining : Z) (due : date).
                        (* f"Short {remaining} cases before {due_date_obj}" *)

(** The clauses joined into the message of a request that is not approved. *)
Inductive bit : Type :=
| Cover (partial : Z) (due : date)
| RemainingNeed (remaining : Z)
| MaterialConstraints (mat_blockers : list blocker).

Inductive message_t : Type :=
| NoLineCanProduce                       (* "No line can produce this SKU." *)
| Approved (extra_cases : Z) (due : date)
| Bits (bits : list bit).                (* " ".join(bits) *)

(** The dict returned by [simulate_request]. *)
Record SimResult := mkResult {
  can_fulfill : bool;
  allocated_total : Z;
  remaining : Z;
  plan_rows : list Plan.row;
  material_blockers : list blocker;
  capacity_blockers : list blocker;
  message : message_t
}.

(** [simulate_request] either returns its dict or propagates the exception of
    the date parser; the source has no other [raise]. *)
Inductive exn : Type :=
| DateParseError.

Inductive outcome : Type :=
| Raised (e : exn)
| Returned (r : SimResult).

(** ** pandas and builtin helpers *)

Definition Zsum (l : list Z) : Z := fold_right Z.add 0 l.

(** [Series.unique()]: first occurrences, in order of appearance. *)
Fixpoint unique (l : list Z) : list Z :=
  match l with
  | [] => []
  | x :: xs => x :: filter (fun y => negb (y =? x)) (unique xs)
  end.

(** [sorted(...)] on dates: ascending; any comparison sort returns this list. *)
Fixpoint insert_sorted (x : Z) (l : list Z) : list Z :=
  match l with
  | [] => [x]
  | y :: ys => if x <=? y then x :: y :: ys else y :: insert_sorted x ys
  end.

Fixpoint sorted (l : list Z) : list Z :=
  match l with
  | [] => []
  | x :: xs => insert_sorted x (sorted xs)
  end.

(** ** The allocation loop, src/app.py lines 330-395 *)

(** [schedule_df[schedule_df["prod_date_only"] <= due_date_obj]] *)
Definition sched_window (due_date_obj : date) (schedule_df : list Schedule.row)
  : list Schedule.row :=
  filter (fun s => Schedule.production_date s <=? due_date_obj) schedule_df.

(** [cap_df[cap_df["product_id"] == product_id]["line_id"].unique().tolist()] *)
Definition capable_lines (cap_df : list Capability.row) (product_id : Z) : list Z :=
  unique (map Capability.line_id
            (filter (fun c => Capability.product_id c =? product_id) cap_df)).

(** The dates iterated: [sorted(sched_window["prod_date_only"].unique())] *)
Definition window_dates (window : list Schedule.row) : list date :=
  sorted (unique (map Schedule.production_date window)).

(** [sched_window[(line_id == line_id) & (prod_date_only == this_date)]] *)
Definition todays_runs (window : list Schedule.row) (line_id : Z) (this_date : date)
  : list Schedule.row :=
  filter (fun s => (Schedule.line_id s =? line_id)
                   && (Schedule.production_date s =? this_date)) window.

Definition total_planned (runs : list Schedule.row) : Z :=
  Zsum (map Schedule.planned_qty_cases runs).

(** [max(daily_capacity - total_planned, 0)] *)
Definition headroom (daily_capacity : Z) (runs : list Schedule.row) : Z :=
  Z.max (daily_capacity - total_planned runs) 0.

(** [todays_runs[~todays_runs["is_firm"]]["planned_qty_cases"].sum()] *)
Definition flex_cases (runs : list Schedule.row) : Z :=
  Zsum (map Schedule.planned_qty_cases
          (filter (fun s => negb (Schedule.is_firm s)) runs)).

(** The loop state: [remaining] and [plan_rows]. *)
Definition alloc_state : Type := Z * list Plan.row.

(** The body of the inner loop after its [break] test (lines 360-393). *)
Definition line_day (lines_df : list Lines.row) (window : list Schedule.row)
    (this_date : date) (line_id : Z) (st : alloc_state) : alloc_state :=
  let '(remaining, plan_rows) := st in
  match filter (fun l => Lines.line_id l =? line_id) lines_df with
  | [] => st                                            (* continue *)
  | line_cap_row :: _ =>
      let daily_capacity := Lines.daily_capacity_cases line_cap_row in
      let runs := todays_runs window line_id this_date in
      let headroom := headroom daily_capacity runs in
      let possible_today := headroom + flex_cases runs in
      if possible_today <=? 0 then st                   (* continue *)
      else
        let allocate_now := Z.min possible_today remaining in
        (remaining - allocate_now,
         plan_rows ++ [ Plan.mk line_id this_date allocate_now
                          (Z.min headroom allocate_now)
                          (Z.max 0 (allocate_now - headroom)) ])
  end.

(** [for line_id in capable_lines: if remaining <= 0: break; ...] *)
Fixpoint line_loop (lines_df : list Lines.row) (window : list Schedule.row)
    (this_date : date) (ls : list Z) (st : alloc_state) : alloc_state :=
  match ls with
  | [] => st
  | line_id :: ls' =>
      if fst st <=? 0 then st                           (* break *)
      else line_loop lines_df window this_date ls'
             (line_day lines_df window this_date line_id st)
  end.

(** [for this_date in sorted(...): if remaining <= 0: break; for line_id ...] *)
Fixpoint date_loop (lines_df : list Lines.row) (window : list Schedule.row)
    (capable : list Z) (ds : list date) (st : alloc_state) : alloc_state :=
  match ds with
  | [] => st
  | this_date :: ds' =>
      if fst st <=? 0 then st                           (* break *)
      else date_loop lines_df window capable ds'
             (line_loop lines_df window this_date capable st)
  end.

(** Lines 348-393: the state after the two loops. *)
Definition allocate (data : Data) (product_id extra_cases : Z) (due_date_obj : date)
  : alloc_state :=
  let window := sched_window due_date_obj (schedule data) in
  date_loop (lines data) window (capable_lines (capability data) product_id)
    (window_dates window) (extra_cases, []).

(** ** The material check, src/app.py lines 397-418 *)

(** [pd.merge(sku_bom, inv_df, on="material_id", how="left")], reduced to the
    [on_hand_qty] cells joined to one BOM row: one cell per matching inventory
    row, in inventory order, or a single missing cell when none matches. *)
Definition merged_on_hand (inv_df : list Inventory.row) (material_id : Z)
  : list (option float) :=
  match filter (fun i => Inventory.material_id i =? material_id) inv_df with
  | [] => [None]
  | rows => map Inventory.on_hand_qty rows
  end.

(** [pd.notnull(cell)]: the cell is neither missing nor NaN. *)
Definition notnull (cell : option float) : bool :=
  match cell with
  | Some q => negb (PrimFloat.is_nan q)
  | None => false
  end.

(** [float(r["on_hand_qty"]) if pd.notnull(r["on_hand_qty"]) else 0.0] *)
Definition have_of (cell : option float) : float :=
  if notnull cell
  then match cell with
       | Some q => q
       | None => 0%float
       end
  else 0%float.

(** The conversion of an integer to float64 that the product with a float
    column performs: the nearest binary64 value, ties to even. *)
Definition float_of_Z (z : Z) : float :=
  FloatOps.SF2Prim (SpecFloat.binary_normalize FloatOps.prec FloatOps.emax z 0 false).

(** [sku_bom["qty_per_case"] * allocated_total] *)
Definition needed_qty (b : Bom.row) (allocated_total : Z) : float :=
  PrimFloat.mul (Bom.qty_per_case b) (float_of_Z allocated_total).

(** The body of [for _, r in merged.iterrows()] for the merged rows of one
    BOM row: [if need > have: shortage = need - have; ...]. *)
Definition check_bom_row (inv_df : list Inventory.row) (allocated_total : Z)
    (b : Bom.row) : list blocker :=
  let need := needed_qty b allocated_total in
  flat_map (fun cell =>
              let have := have_of cell in
              if PrimFloat.ltb have need
              then [ShortBy (Bom.material_name b) (PrimFloat.sub need have)
                            (Bom.supplier_lead_time_days b)]
              else [])
           (merged_on_hand inv_df (Bom.material_id b)).

Definition sku_bom (bom_df : list Bom.row) (product_id : Z) : list Bom.row :=
  filter (fun b => Bom.product_id b =? product_id) bom_df.

Definition material_check (bom_df : list Bom.row) (inv_df : list Inventory.row)
    (product_id allocated_total : Z) : list blocker :=
  match sku_bom bom_df product_id with
  | [] => [NoBomForSku]
  | rows => flat_map (check_bom_row inv_df allocated_total) rows
  end.

(** ** The verdict, src/app.py lines 420-456 *)

Definition is_empty {A : Type} (l : list A) : bool :=
  match l with
  | [] => true
  | _ :: _ => false
  end.

Definition compose_result (extra_cases : Z) (due_date_obj : date)
    (st : alloc_state) (mat_blockers : list blocker) : SimResult :=
  let '(remaining, plan_rows) := st in
  let allocated_total := extra_cases - remaining in
  let cap_blockers :=
    if 0 <? remaining then [ShortCases remaining due_date_obj] else [] in
  if (remaining <=? 0) && is_empty mat_blockers then
    mkResult true allocated_total remaining plan_rows mat_blockers cap_blockers
      (Approved extra_cases due_date_obj)
  else
    let bits :=
      (if 0 <? allocated_total then [Cover allocated_total due_date_obj] else [])
      ++ (if 0 <? remaining then [RemainingNeed remaining] else [])
      ++ (if is_empty mat_blockers then [] else [MaterialConstraints mat_blockers]) in
    mkResult false allocated_total remaining plan_rows mat_blockers cap_blockers
      (Bits bits).

(** The result of the early return at lines 337-346. *)
Definition no_capable_line_result (extra_cases : Z) : SimResult :=
  mkResult false 0 extra_cases [] [NoLineCanRun] [NoCapableLineFound]
    NoLineCanProduce.

Section Simulator.

(** [pd.to_datetime(s).date()]; [None] where pandas raises. *)
Variable to_datetime_date : string -> option date.

Definition simulate_request (product_id extra_cases : Z) (due_date_str : string)
    (data : Data) : outcome :=
  match to_datetime_date due_date_str with
  | None => Raised DateParseError
  | Some due_date_obj =>
      match capable_lines (capability data) product_id with
      | [] => Returned (no_capable_line_result extra_cases)
      | _ :: _ =>
          let st := allocate data product_id extra_cases due_date_obj in
          let allocated_total := extra_cases - fst st in
          let mat_blockers :=
            material_check (bom data) (inventory data) product_id allocated_total in
          Returned (compose_result extra_cases due_date_obj st mat_blockers)
      end
  end.

End Simulator.

(** ** A concrete date parser for the strings the caller passes

    The caller passes [str(due_date_input)] (src/app.py line 712), the ISO
    form [YYYY-MM-DD] of a [datetime.date].  [iso_date] reads exactly that
    form and returns the ordinal of the date, as [date.toordinal()] counts
    it; it instantiates the parameter of [simulate_request] in the examples. *)

Definition digit (c : ascii) : option Z :=
  let n := Z.of_N (N_of_ascii c) - 48 in
  if (0 <=? n) && (n <=? 9) then Some n else None.

Definition is_leap (y : Z) : bool :=
  (y mod 4 =? 0) && (negb (y mod 100 =? 0) || (y mod 400 =? 0)).

Definition days_in_month (y m : Z) : Z :=
  if m =? 2 then (if is_leap y then 29 else 28)
  else if (m =? 4) || (m =? 6) || (m =? 9) || (m =? 11) then 30
  else 31.

Fixpoint days_before_month_aux (y : Z) (n : nat) : Z :=
  match n with
  | O => 0
  | S n' => days_before_month_aux y n' + days_in_month y (Z.of_nat n)
  end.

Definition days_before_month (y m : Z) : Z :=
  days_before_month_aux y (Z.to_nat (m - 1)).

Definition days_before_year (y : Z) : Z :=
  let y' := y - 1 in
  y' * 365 + y' / 4 - y' / 100 + y' / 400.

Definition ymd2ord (y m d : Z) : option date :=
  if (1 <=? y) && (1 <=? m) && (m <=? 12) && (1 <=? d) && (d <=? days_in_month y m)
  then Some (days_before_year y + days_before_month y m + d)
  else None.

Definition num2 (a b : ascii) : option Z :=
  match digit a, digit b with
  | Some x, Some y => Some (10 * x + y)
  | _, _ => None
  end.

Definition iso_date (s : string) : option date :=
  match s with
  | String y1 (String y2 (String y3 (String y4 (String "-"
      (String m1 (String m2 (String "-"
        (String d1 (String d2 EmptyString))))))))) =>
      match num2 y1 y2, num2 y3 y4, num2 m1 m2, num2 d1 d2 with
      | Some yh, Some yl, Some m, Some d => ymd2ord (100 * yh + yl) m d
      | _, _, _, _ => None
      end
  | _ => None
  end.

(** ** Example snapshots *)

Definition day1 : date := 739254.   (* 2025-01-03 *)

(** One line of capacity 10,000; a flexible run of 6,000 cases of another
    product on day 1; product 1 needs half a unit of material 10 per case. *)
Definition demo : Data :=
  mkData
    [Schedule.mk 1 day1 2 6000 false]
    [Lines.mk 1 "Line 1" 10000]
    [Capability.mk 1 1 (500 # 1)]
    [Bom.mk 1 10 0.5%float "Sugar" 7]
    [Inventory.mk 10 (Some 5000%float)].

(** The same snapshot with no capability row and no bill of materials. *)
Definition demo_bare : Data :=
  mkData (schedule demo) (lines demo) [] [] (inventory demo).

(** The same snapshot with the run made firm and of the requested product. *)
Definition demo_firm : Data :=
  mkData [Schedule.mk 1 day1 1 6000 true]
    (lines demo) (capability demo) (bom demo) (inventory demo).

(** The same snapshot with 500 units of material 10 on hand. *)
Definition demo_short : Data :=
  mkData (schedule demo) (lines demo) (capability demo) (bom demo)
    [Inventory.mk 10 (Some 500%float)].

(** The same snapshot with no bill of materials. *)
Definition demo_no_bom : Data :=
  mkData (schedule demo) (lines demo) (capability demo) [] (inventory demo).

(** The same snapshot with a firm run of 8,000 cases added on day 1: 14,000
    cases are planned on a line of 10,000. *)
Definition demo_overcommitted : Data :=
  mkData [Schedule.mk 1 day1 3 8000 true; Schedule.mk 1 day1 2 6000 false]
    (lines demo) (capability demo) (bom demo) (inventory demo).

(** The same snapshot with the float nearest to 0.1 needed per case and 1.0
    on hand. *)
Definition demo_tenth : Data :=
  mkData (schedule demo) (lines demo) (capability demo)
    [Bom.mk 1 10 0x1.999999999999ap-4%float "Sugar" 7]
    [Inventory.mk 10 (Some 1%float)].

(** A line of capacity 10 with a flexible run of -3 cases. *)
Definition demo_negative : Data :=
  mkData [Schedule.mk 1 day1 2 (-3) false] [Lines.mk 1 "Line 1" 10]
    (capability demo) (bom demo) (inventory demo).

(** The same snapshot with its only run planned on the day after day 1. *)
Definition demo_late : Data :=
  mkData [Schedule.mk 1 (day1 + 1) 2 6000 false]
    (lines demo) (capability demo) (bom demo) (inventory demo).

(** ** The invariant of the allocation loop, as definitions *)

(** [row] is the step appended for line [l] on date [d] when [rem] cases
    were still to be placed. *)
Definition step_of (lines_df : list Lines.row) (window : list Schedule.row)
    (d : date) (l rem : Z) (row : Plan.row) : Prop :=
  exists cap_row rest,
    filter (fun r => Lines.line_id r =? l) lines_df = cap_row :: rest /\
    let runs := todays_runs window l d in
    let h := headroom (Lines.daily_capacity_cases cap_row) runs in
    let allocate_now := Z.min (h + flex_cases runs) rem in
    0 < h + flex_cases runs /\ 0 < rem /\
    row = Plan.mk l d allocate_now (Z.min h allocate_now) (Z.max 0 (allocate_now - h)).

(** [row] was appended on one of the iterated dates, for one of the capable
    lines. *)
Definition produced (lines_df : list Lines.row) (window : list Schedule.row)
    (dates : list date) (capable : list Z) (row : Plan.row) : Prop :=
  exists d l rem, In d dates /\ In l capable /\ step_of lines_df window d l rem row.

(** What holds of [remaining] and [plan_rows] at every point of the loops. *)
Definition loop_inv (lines_df : list Lines.row) (window : list Schedule.row)
    (dates : list date) (capable : list Z) (extra_cases : Z) (st : alloc_state) : Prop :=
  Zsum (map Plan.allocated_cases (snd st)) + fst st = extra_cases /\
  (forall row, In row (snd st) -> produced lines_df window dates capable row) /\
  (0 <= extra_cases -> 0 <= fst st).

(** ** Spec-side notions the claims compare the code with *)

(** The sum of the non-firm planned quantities of line [l] on date [d] in a
    schedule. *)
Definition nonfirm_planned (schedule_df : list Schedule.row) (l : Z) (d : date) : Z :=
  Zsum (map Schedule.planned_qty_cases
          (filter (fun s => (Schedule.line_id s =? l)
                            && (Schedule.production_date s =? d)
                            && negb (Schedule.is_firm s)) schedule_df)).

(** [h] is an on-hand stock of material [m]: the quantity of an inventory
    record of [m] when it is a number, 0 when the quantity of the record is
    missing or not a number, and 0 when [m] has no inventory record at all. *)
Definition stock_of (inv_df : list Inventory.row) (m : Z) (h : float) : Prop :=
  (exists i, In i inv_df /\ Inventory.material_id i = m /\
             Inventory.on_hand_qty i = Some h /\ PrimFloat.is_nan h = false) \/
  (exists i, In i inv_df /\ Inventory.material_id i = m /\
             (Inventory.on_hand_qty i = None \/
              exists q, Inventory.on_hand_qty i = Some q /\ PrimFloat.is_nan q = true) /\
             h = 0%float) \/
  ((forall i, In i inv_df -> Inventory.material_id i <> m) /\ h = 0%float).

(** The on-hand stock of material [m] when the inventory has at most one
    record per material. *)
Definition on_hand (inv_df : list Inventory.row) (m : Z) : float :=
  match filter (fun i => Inventory.material_id i =? m) inv_df with
  | [] => 0%float
  | i :: _ =>
      match Inventory.on_hand_qty i with
      | Some q => if PrimFloat.is_nan q then 0%float else q
      | None => 0%float
      end
  end.

(** The sum of the planned quantities of line [l] on date [d] in a schedule,
    firm or not. *)
Definition planned_total (schedule_df : list Schedule.row) (l : Z) (d : date) : Z :=
  Zsum (map Schedule.planned_qty_cases
          (filter (fun s => (Schedule.line_id s =? l)
                            && (Schedule.production_date s =? d)) schedule_df)).

(** The snapshot with another schedule table. *)
Definition with_schedule (data : Data) (schedule_df : list Schedule.row) : Data :=
  mkData schedule_df (lines data) (capability data) (bom data) (inventory data).

(** ** Notions used to describe the plan *)

(** The daily capacity the loop reads for line [l]: that of the first row of
    the line in the lines table, if the line has one. *)
Definition line_capacity (lines_df : list Lines.row) (l : Z) : option Z :=
  match filter (fun r => Lines.line_id r =? l) lines_df with
  | [] => None
  | r :: _ => Some (Lines.daily_capacity_cases r)
  end.

(** What line [l] can take on date [d] given the runs of a schedule: its
    headroom plus its flexible cases when that is positive, nothing when the
    line is unknown to the lines table. *)
Definition line_day_capacity (lines_df : list Lines.row)
    (schedule_df : list Schedule.row) (l : Z) (d : date) : Z :=
  match line_capacity lines_df l with
  | None => 0
  | Some cap =>
      let runs := todays_runs schedule_df l d in
      Z.max 0 (headroom cap runs + flex_cases runs)
  end.

(** The line-days the loops visit, in visiting order: every scheduled date of
    the window, ascending, paired with every capable line. *)
Definition visited_line_days (data : Data) (p : Z) (due : date) : list (date * Z) :=
  list_prod (window_dates (sched_window due (schedule data)))
            (capable_lines (capability data) p).

(** The total the capable lines can take on the visited line-days. *)
Definition window_capacity (data : Data) (p : Z) (due : date) : Z :=
  Zsum (map (fun dl => line_day_capacity (lines data) (schedule data) (snd dl) (fst dl))
          (visited_line_days data p due)).

(** The line-day of a plan row. *)
Definition key (row : Plan.row) : date * Z :=
  (Plan.production_date row, Plan.line_id row).

(** [l1] is [l2] with some elements left out, order kept. *)
Inductive subseq {A : Type} : list A -> list A -> Prop :=
| subseq_nil : subseq [] []
| subseq_skip (x : A) (l1 l2 : list A) : subseq l1 l2 -> subseq l1 (x :: l2)
| subseq_take (x : A) (l1 l2 : list A) : subseq l1 l2 -> subseq (x :: l1) (x :: l2).

(** The schedule with the product of every run replaced by [f] of the run. *)
Definition relabel_products (f : Schedule.row -> Z) (schedule_df : list Schedule.row)
  : list Schedule.row :=
  map (fun e => Schedule.mk (Schedule.line_id e) (Schedule.production_date e) (f e)
                  (Schedule.planned_qty_cases e) (Schedule.is_firm e)) schedule_df.

(** ** The Gantt figure, src/app.py lines 462-542

    [build_gantt_figure] receives the frame of [load_schedule_df]: the
    schedule joined with the names of its line and product and with the rate
    of the line for the product.  A [datetime] is the number of milliseconds
    since midnight of the day of ordinal 0; the figure is kept as the
    arguments given to plotly that depend on the data: one bar per row, the
    category order of the y axis and the range of the x axis (the fixed
    colours, sizes and margins of the layout are left out, and so is the
    hover text; [text] is the string the source builds). *)

Module Gantt.
Record row := mk {
  line_id : Z;
  line_name : string;
  production_date : date;
  product_id : Z;
  product_name : string;
  planned_qty_cases : Z;
  is_firm : bool;
  rate_cases_per_hour : Q;
  hours_needed : float
}.
End Gantt.

Definition datetime := Z.

(** [datetime.combine(d, datetime.min.time())] *)
Definition midnight (d : date) : datetime := d * 86400000.

(** [timedelta(hours=n)] *)
Definition hours (n : Z) : Z := n * 3600000.

(** The arguments of one [go.Bar]: [x], [y], [base], the marker colour and
    [text]. *)
Module Bar.
Record t := mk {
  x : float;
  y : string;
  base : datetime;
  color : string;
  text : string
}.
End Bar.

Record Figure := mkFigure {
  traces : list Bar.t;
  categoryarray : list string;
  xaxis_range : datetime * datetime
}.

Definition firm_color : string := "#10b981".
Definition flexible_color : string := "#fbbf24".

(** [Series.unique()] on names. *)
Fixpoint unique_str (l : list string) : list string :=
  match l with
  | [] => []
  | x :: xs => x :: filter (fun y => negb (String.eqb y x)) (unique_str xs)
  end.

(** [sorted(..., reverse=True)] on names: descending in the order of
    [String.compare], which compares byte by byte as Python compares code
    points. *)
Fixpoint insert_desc (x : string) (l : list string) : list string :=
  match l with
  | [] => [x]
  | y :: ys => if String.leb y x then x :: y :: ys else y :: insert_desc x ys
  end.

Fixpoint sorted_reverse (l : list string) : list string :=
  match l with
  | [] => []
  | x :: xs => insert_desc x (sorted_reverse xs)
  end.

(** A byte [10xxxxxx] continues the character begun before it. *)
Definition is_continuation (c : ascii) : bool :=
  let n := Z.of_N (N_of_ascii c) in (128 <=? n) && (n <? 192).

(** [s[:n]]: the first [n] characters of [s]. *)
Fixpoint str_prefix (n : nat) (s : string) : string :=
  match s with
  | EmptyString => EmptyString
  | String c s' =>
      if is_continuation c then String c (str_prefix n s')
      else match n with
           | O => EmptyString
           | S n' => String c (str_prefix n' s')
           end
  end.

(** [str(int(z))]: the decimal digits of [z], with a minus sign when
    negative. *)
Definition str_of_int (z : Z) : string :=
  DecimalString.NilZero.string_of_int (Z.to_int z).

(** The body of [for _, row in df.iterrows()]. *)
Definition gantt_bar (row : Gantt.row) : Bar.t :=
  let start_dt := midnight (Gantt.production_date row) + hours 8 in
  let color := if Gantt.is_firm row then firm_color else flexible_color in
  let duration_ms := PrimFloat.mul (Gantt.hours_needed row) 3600000%float in
  Bar.mk duration_ms (Gantt.line_name row) start_dt color
    (str_prefix 15 (Gantt.product_name row) ++ "<br>"
     ++ str_of_int (Gantt.planned_qty_cases row) ++ "c")%string.

Definition build_gantt_figure (schedule_df : list Gantt.row) : option Figure :=
  match schedule_df with
  | [] => None
  | row0 :: rest =>
      let min_date :=
        fold_left Z.min (map Gantt.production_date rest) (Gantt.production_date row0) in
      let max_date := min_date + 9 in
      let df := filter (fun r => Gantt.production_date r <=? max_date) schedule_df in
      match df with
      | [] => None
      | _ :: _ =>
          let lines := sorted_reverse (unique_str (map Gantt.line_name df)) in
          Some (mkFigure (map gantt_bar df) lines
                  (midnight min_date - hours 4, midnight max_date + hours 20))
      end
  end.

(** ** The inventory endpoint, src/backend/main.py lines 160-198

    [rows] is what [cur.fetchall()] returns; a NULL column is [None].
    [float(None)] raises [TypeError]; the lead time is guarded by
    [is not None]. *)

Module InventoryApi.
Record db_row := mk_row {
  row_material_id : Z;
  row_material_name : string;
  row_uom : string;
  row_lead_time_days : option Z;
  row_on_hand_qty : option Q
}.
Record item := mk_item {
  material_id : Z;
  material_name : string;
  uom : string;
  supplier_lead_time_days : option Z;
  on_hand_qty : Q
}.
End InventoryApi.

Inductive api_outcome (A : Type) : Type :=
| TypeErrorRaised
| ApiReturned (a : A).
Arguments TypeErrorRaised {A}.
Arguments ApiReturned {A} a.

(** [for row in rows: ... result.append({...})] *)
Fixpoint get_inventory_loop (rows : list InventoryApi.db_row)
    (result : list InventoryApi.item) : api_outcome (list InventoryApi.item) :=
  match rows with
  | [] => ApiReturned result
  | row :: rest =>
      match InventoryApi.row_on_hand_qty row with
      | None => TypeErrorRaised
      | Some q =>
          get_inventory_loop rest
            (result ++ [InventoryApi.mk_item
                          (InventoryApi.row_material_id row)
                          (InventoryApi.row_material_name row)
                          (InventoryApi.row_uom row)
                          (InventoryApi.row_lead_time_days row)
                          q])
      end
  end.

Definition get_inventory (rows : list InventoryApi.db_row)
  : api_outcome (list InventoryApi.item) :=
  get_inventory_loop rows [].

(** A schedule frame for the figure: two lines, runs on day 1, on day 1 + 9
    and on day 1 + 10. *)
Definition demo_gantt : list Gantt.row :=
  [Gantt.mk 1 "Line A" (day1 + 9) 1 "Cola" 5000 true (500 # 1) 10%float;
   Gantt.mk 2 "Line B" day1 2 "Sparkling Lemonade 330ml" 2500 false (500 # 1) 5%float;
   Gantt.mk 1 "Line A" (day1 + 10) 1 "Cola" 1000 true (500 # 1) 2%float].

Definition demo_inventory_rows : list InventoryApi.db_row :=
  [InventoryApi.mk_row 10 "Sugar" "kg" (Some 7) (Some (5000 # 1));
   InventoryApi.mk_row 11 "Caps" "pc" None (Some (90000 # 1))].

(** * Properties *)

(** ** Membership through [unique], [sorted] and the window *)

Lemma unique_In (x : Z) (l : list Z) : In x (unique l) <-> In x l.
Proof.
  induction l as [|a l IH]; simpl; [tauto|].
  rewrite filter_In, IH, negb_true_iff, Z.eqb_neq.
  destruct (Z.eq_dec a x) as [->|Hne]; [tauto|].
  split; [tauto|]. intros [H|H]; [tauto|]. right. split; [exact H|congruence].
Qed.

Lemma insert_sorted_In (x y : Z) (l : list Z) :
  In x (insert_sorted y l) <-> x = y \/ In x l.
Proof.
  induction l as [|a l IH]; simpl.
  - intuition congruence.
  - destruct (y <=? a); simpl; rewrite ?IH; intuition congruence.
Qed.

Lemma sorted_In (x : Z) (l : list Z) : In x (sorted l) <-> In x l.
Proof.
  induction l as [|a l IH]; simpl; [tauto|].
  rewrite insert_sorted_In, IH. intuition congruence.
Qed.

(** [unique] leaves no duplicate and [sorted] returns an ascending
    permutation of its argument: the dates are iterated once each, in
    chronological order. *)
Lemma unique_NoDup (l : list Z) : NoDup (unique l).
Proof.
  induction l as [|a l IH]; simpl; constructor.
  - rewrite filter_In, negb_true_iff, Z.eqb_neq. tauto.
  - apply NoDup_filter. exact IH.
Qed.

Lemma insert_sorted_Sorted (x : Z) (l : list Z) :
  Sorted Z.le l -> Sorted Z.le (insert_sorted x l).
Proof.
  induction l as [|a l IH]; simpl; intros H.
  - repeat constructor.
  - destruct (x <=? a) eqn:E.
    + apply Z.leb_le in E. constructor; [exact H | constructor; exact E].
    + apply Z.leb_gt in E. inversion H as [|a' l' Hs Hhd]; subst.
      constructor; [apply IH; exact Hs|].
      destruct l as [|b l]; simpl; [constructor; lia|].
      destruct (x <=? b); constructor; [lia|].
      inversion Hhd; subst. assumption.
Qed.

Lemma sorted_Sorted (l : list Z) : Sorted Z.le (sorted l).
Proof.
  induction l as [|a l IH]; simpl; [constructor|].
  apply insert_sorted_Sorted. exact IH.
Qed.

Lemma insert_sorted_Permutation (x : Z) (l : list Z) :
  Permutation (x :: l) (insert_sorted x l).
Proof.
  induction l as [|a l IH]; simpl; [reflexivity|].
  destruct (x <=? a); [reflexivity|].
  rewrite perm_swap. constructor. exact IH.
Qed.

Lemma sorted_Permutation (l : list Z) : Permutation l (sorted l).
Proof.
  induction l as [|a l IH]; simpl; [constructor|].
  rewrite <- insert_sorted_Permutation. constructor. exact IH.
Qed.

Lemma sched_window_In (due : date) (sch : list Schedule.row) (s : Schedule.row) :
  In s (sched_window due sch) <-> In s sch /\ Schedule.production_date s <= due.
Proof. unfold sched_window. rewrite filter_In, Z.leb_le. tauto. Qed.

Lemma window_dates_In (w : list Schedule.row) (d : date) :
  In d (window_dates w) <-> exists s, In s w /\ Schedule.production_date s = d.
Proof.
  unfold window_dates. rewrite sorted_In, unique_In, in_map_iff.
  split; intros [s [H1 H2]]; exists s; tauto.
Qed.

Lemma window_dates_le (due : date) (sch : list Schedule.row) (d : date) :
  In d (window_dates (sched_window due sch)) -> d <= due.
Proof.
  rewrite window_dates_In. intros [s [Hs <-]].
  apply sched_window_In in Hs. tauto.
Qed.

(** Inside the window, the runs of a line-day are those of the whole schedule. *)
Lemma todays_runs_window (due : date) (sch : list Schedule.row) (l : Z) (d : date) :
  d <= due -> todays_runs (sched_window due sch) l d = todays_runs sch l d.
Proof.
  intros Hd. unfold todays_runs, sched_window.
  induction sch as [|s sch IH]; simpl; [reflexivity|].
  destruct (Schedule.production_date s <=? due) eqn:E; simpl; rewrite IH; [reflexivity|].
  destruct (Schedule.production_date s =? d) eqn:E'.
  - apply Z.eqb_eq in E'. apply Z.leb_gt in E. lia.
  - rewrite andb_false_r. reflexivity.
Qed.

Lemma Zsum_app (l1 l2 : list Z) : Zsum (l1 ++ l2) = Zsum l1 + Zsum l2.
Proof. unfold Zsum. induction l1 as [|a l1 IH]; simpl; [reflexivity|]. rewrite IH. lia. Qed.

Lemma Zsum_nonneg (l : list Z) : (forall x, In x l -> 0 <= x) -> 0 <= Zsum l.
Proof.
  unfold Zsum. induction l as [|a l IH]; simpl; intros H; [lia|].
  assert (0 <= a) by (apply H; tauto).
  assert (0 <= fold_right Z.add 0 l) by (apply IH; intros; apply H; tauto). lia.
Qed.

Lemma flex_cases_nonneg (runs : list Schedule.row) :
  (forall s, In s runs -> 0 <= Schedule.planned_qty_cases s) -> 0 <= flex_cases runs.
Proof.
  intros H. unfold flex_cases. apply Zsum_nonneg.
  intros x Hx. apply in_map_iff in Hx. destruct Hx as [s [<- Hs]].
  apply filter_In in Hs. apply H. tauto.
Qed.

(** ** The invariant of the allocation loop *)

Section LoopInvariant.

Variable lines_df : list Lines.row.
Variable window : list Schedule.row.
Variable dates : list date.
Variable capable : list Z.
Variable extra_cases : Z.

Local Abbreviation loop_inv' := (loop_inv lines_df window dates capable extra_cases).

Lemma loop_inv_init : loop_inv' (extra_cases, []).
Proof. unfold loop_inv; simpl. split; [lia | split; [tauto | tauto]]. Qed.

Lemma line_day_inv (d : date) (l : Z) (st : alloc_state) :
  In d dates -> In l capable -> 0 < fst st ->
  loop_inv' st -> loop_inv' (line_day lines_df window d l st).
Proof.
  intros Hd Hl Hpos Hinv. destruct st as [rem plan]. simpl in Hpos.
  unfold line_day.
  destruct (filter (fun r => Lines.line_id r =? l) lines_df) as [|cap_row rest] eqn:Ef;
    [exact Hinv|].
  cbv zeta.
  destruct (headroom (Lines.daily_capacity_cases cap_row) (todays_runs window l d)
            + flex_cases (todays_runs window l d) <=? 0) eqn:Ep; [exact Hinv|].
  apply Z.leb_gt in Ep.
  destruct Hinv as [Hsum [Hrows Hnn]]. simpl in Hsum, Hrows, Hnn.
  unfold loop_inv; simpl. repeat split.
  - rewrite map_app, Zsum_app. simpl. lia.
  - intros row Hin. apply in_app_or in Hin. destruct Hin as [Hin|[<-|[]]].
    + apply Hrows, Hin.
    + exists d, l, rem. repeat split; try assumption.
      exists cap_row, rest. rewrite Ef. cbv zeta. repeat split; assumption.
  - intros _. lia.
Qed.

Lemma line_loop_inv (d : date) (ls : list Z) :
  In d dates -> (forall l, In l ls -> In l capable) ->
  forall st, loop_inv' st -> loop_inv' (line_loop lines_df window d ls st).
Proof.
  intros Hd. induction ls as [|l ls IH]; intros Hsub st Hinv; simpl; [exact Hinv|].
  destruct (fst st <=? 0) eqn:Eb; [exact Hinv|]. apply Z.leb_gt in Eb.
  apply IH; [intros; apply Hsub; simpl; tauto|].
  apply line_day_inv; try assumption. apply Hsub; simpl; tauto.
Qed.

Lemma date_loop_inv (ds : list date) :
  (forall d, In d ds -> In d dates) ->
  forall st, loop_inv' st -> loop_inv' (date_loop lines_df window capable ds st).
Proof.
  induction ds as [|d ds IH]; intros Hsub st Hinv; simpl; [exact Hinv|].
  destruct (fst st <=? 0) eqn:Eb; [exact Hinv|].
  apply IH; [intros; apply Hsub; simpl; tauto|].
  apply line_loop_inv; [apply Hsub; simpl; tauto | tauto | exact Hinv].
Qed.

End LoopInvariant.

(** With nothing left to place the loops stop at once. *)
Lemma date_loop_done (lines_df : list Lines.row) (window : list Schedule.row)
    (capable : list Z) (ds : list date) (st : alloc_state) :
  fst st <= 0 -> date_loop lines_df window capable ds st = st.
Proof.
  intros H. destruct ds as [|d ds]; simpl; [reflexivity|].
  apply Z.leb_le in H. rewrite H. reflexivity.
Qed.

Lemma allocate_inv (data : Data) (product_id extra_cases : Z) (due : date) :
  let window := sched_window due (schedule data) in
  loop_inv (lines data) window (window_dates window)
    (capable_lines (capability data) product_id) extra_cases
    (allocate data product_id extra_cases due).
Proof.
  cbv zeta. unfold allocate. apply date_loop_inv; [tauto | apply loop_inv_init].
Qed.

(** The fields of the composed result. *)
Lemma compose_result_fields (extra_cases : Z) (due : date) (st : alloc_state)
    (mat : list blocker) :
  let r := compose_result extra_cases due st mat in
  allocated_total r = extra_cases - fst st /\ remaining r = fst st /\
  plan_rows r = snd st /\ material_blockers r = mat /\
  can_fulfill r = (fst st <=? 0) && is_empty mat.
Proof.
  destruct st as [rem plan]. unfold compose_result. simpl.
  destruct ((rem <=? 0) && is_empty mat); simpl; repeat split; reflexivity.
Qed.

(** ** Capable lines and the two exits of [simulate_request] *)

Lemma capable_lines_In (cap_df : list Capability.row) (p l : Z) :
  In l (capable_lines cap_df p) <->
  exists c, In c cap_df /\ Capability.product_id c = p /\ Capability.line_id c = l.
Proof.
  unfold capable_lines. rewrite unique_In, in_map_iff. split.
  - intros [c [Hl Hc]]. apply filter_In in Hc. destruct Hc as [Hc Hp].
    apply Z.eqb_eq in Hp. exists c. tauto.
  - intros [c [Hc [Hp Hl]]]. exists c. split; [exact Hl|].
    apply filter_In. split; [exact Hc|]. apply Z.eqb_eq. exact Hp.
Qed.

Lemma capable_lines_none (cap_df : list Capability.row) (p : Z) :
  (forall c, In c cap_df -> Capability.product_id c <> p) ->
  capable_lines cap_df p = [].
Proof.
  intros H. destruct (capable_lines cap_df p) as [|l ls] eqn:E; [reflexivity|].
  assert (Hin : In l (capable_lines cap_df p)) by (rewrite E; simpl; tauto).
  apply capable_lines_In in Hin. destruct Hin as [c [Hc [Hp _]]].
  exfalso. exact (H c Hc Hp).
Qed.

Lemma capable_lines_some (cap_df : list Capability.row) (p : Z) :
  (exists c, In c cap_df /\ Capability.product_id c = p) ->
  capable_lines cap_df p <> [].
Proof.
  intros [c [Hc Hp]] E.
  assert (Hin : In (Capability.line_id c) (capable_lines cap_df p))
    by (apply capable_lines_In; exists c; tauto).
  rewrite E in Hin. exact Hin.
Qed.

(** Without a capable line the loops would not place anything either. *)
Lemma date_loop_no_lines (lines_df : list Lines.row) (window : list Schedule.row)
    (ds : list date) (st : alloc_state) :
  date_loop lines_df window [] ds st = st.
Proof.
  induction ds as [|d ds IH]; simpl; [reflexivity|].
  destruct (fst st <=? 0); [reflexivity|]. exact IH.
Qed.

Lemma allocate_incapable (data : Data) (p extra_cases : Z) (due : date) :
  capable_lines (capability data) p = [] ->
  allocate data p extra_cases due = (extra_cases, []).
Proof. intros E. unfold allocate. rewrite E. apply date_loop_no_lines. Qed.

Section Exits.

Variable to_datetime_date : string -> option date.

Lemma simulate_request_incapable (p extra_cases : Z) (s : string) (data : Data)
    (due : date) :
  to_datetime_date s = Some due ->
  capable_lines (capability data) p = [] ->
  simulate_request to_datetime_date p extra_cases s data
  = Returned (no_capable_line_result extra_cases).
Proof. intros Hd E. unfold simulate_request. rewrite Hd, E. reflexivity. Qed.

Lemma simulate_request_capable (p extra_cases : Z) (s : string) (data : Data)
    (due : date) :
  to_datetime_date s = Some due ->
  capable_lines (capability data) p <> [] ->
  simulate_request to_datetime_date p extra_cases s data
  = Returned (compose_result extra_cases due (allocate data p extra_cases due)
                (material_check (bom data) (inventory data) p
                   (extra_cases - fst (allocate data p extra_cases due)))).
Proof.
  intros Hd E. unfold simulate_request. rewrite Hd.
  destruct (capable_lines (capability data) p); [congruence|reflexivity].
Qed.

(** Whenever the due date parses, a result is returned, and its allocation
    fields are those of the loop state. *)
Lemma simulate_request_returns (p extra_cases : Z) (s : string) (data : Data)
    (due : date) :
  to_datetime_date s = Some due ->
  exists r,
    simulate_request to_datetime_date p extra_cases s data = Returned r /\
    remaining r = fst (allocate data p extra_cases due) /\
    plan_rows r = snd (allocate data p extra_cases due) /\
    allocated_total r = extra_cases - remaining r /\
    (capable_lines (capability data) p = [] ->
       r = no_capable_line_result extra_cases) /\
    (capable_lines (capability data) p <> [] ->
       material_blockers r
       = material_check (bom data) (inventory data) p (allocated_total r) /\
       can_fulfill r = (remaining r <=? 0) && is_empty (material_blockers r)).
Proof.
  intros Hd. destruct (capable_lines (capability data) p) as [|l ls] eqn:E.
  - exists (no_capable_line_result extra_cases).
    rewrite (simulate_request_incapable _ _ _ _ _ Hd E).
    rewrite (allocate_incapable _ _ _ _ E). simpl.
    repeat split; try reflexivity; try lia; congruence.
  - assert (Hne : capable_lines (capability data) p <> []) by (rewrite E; discriminate).
    rewrite (simulate_request_capable _ _ _ _ _ Hd Hne).
    eexists. split; [reflexivity|].
    pose proof (compose_result_fields extra_cases due (allocate data p extra_cases due)
                  (material_check (bom data) (inventory data) p
                     (extra_cases - fst (allocate data p extra_cases due)))) as F.
    cbv zeta in F. destruct F as [Fa [Fr [Fp [Fm Fc]]]].
    rewrite Fr, Fp, Fa, Fm, Fc. repeat split; try reflexivity; try congruence.
Qed.

End Exits.

(** ** Non-firm totals and the material check *)

Lemma flex_cases_todays_runs (sch : list Schedule.row) (l : Z) (d : date) :
  flex_cases (todays_runs sch l d) = nonfirm_planned sch l d.
Proof.
  unfold flex_cases, todays_runs, nonfirm_planned.
  induction sch as [|e sch IH]; simpl; [reflexivity|].
  destruct ((Schedule.line_id e =? l) && (Schedule.production_date e =? d)); simpl;
    [destruct (negb (Schedule.is_firm e)); simpl; rewrite IH; reflexivity | exact IH].
Qed.

Lemma have_of_number (q : float) :
  PrimFloat.is_nan q = false -> have_of (Some q) = q.
Proof. intros H. unfold have_of, notnull. rewrite H. reflexivity. Qed.

Lemma have_of_nan (q : float) :
  PrimFloat.is_nan q = true -> have_of (Some q) = 0%float.
Proof. intros H. unfold have_of, notnull. rewrite H. reflexivity. Qed.

Lemma merged_on_hand_In (inv_df : list Inventory.row) (m : Z) (h : float) :
  (exists cell, In cell (merged_on_hand inv_df m) /\ h = have_of cell) <->
  stock_of inv_df m h.
Proof.
  unfold merged_on_hand, stock_of.
  destruct (filter (fun i => Inventory.material_id i =? m) inv_df) as [|i0 rows] eqn:E.
  - assert (Hnone : forall i, In i inv_df -> Inventory.material_id i <> m).
    { intros i Hi Hm.
      assert (Hin : In i (filter (fun i => Inventory.material_id i =? m) inv_df))
        by (apply filter_In; split; [exact Hi | apply Z.eqb_eq; exact Hm]).
      rewrite E in Hin. exact Hin. }
    split.
    + intros [cell [[<-|[]] ->]]. right. right. split; [exact Hnone | reflexivity].
    + intros [[i [Hi [Hm _]]] | [[i [Hi [Hm _]]] | [_ ->]]];
        [exfalso; exact (Hnone i Hi Hm) | exfalso; exact (Hnone i Hi Hm) |].
      exists None. split; [simpl; tauto | reflexivity].
  - rewrite <- E. split.
    + intros [cell [Hin ->]]. apply in_map_iff in Hin. destruct Hin as [i [<- Hi]].
      apply filter_In in Hi. destruct Hi as [Hi Hm]. apply Z.eqb_eq in Hm.
      destruct (Inventory.on_hand_qty i) as [q|] eqn:Eq.
      * destruct (PrimFloat.is_nan q) eqn:En.
        -- right. left. exists i. rewrite (have_of_nan q En).
           repeat split; try assumption. right. exists q. tauto.
        -- left. exists i. rewrite (have_of_number q En). tauto.
      * right. left. exists i. repeat split; try assumption. left. exact Eq.
    + assert (Hcell : forall i, In i inv_df -> Inventory.material_id i = m ->
                In (Inventory.on_hand_qty i)
                   (map Inventory.on_hand_qty
                      (filter (fun i => Inventory.material_id i =? m) inv_df))).
      { intros i Hi Hm. apply in_map. apply filter_In.
        split; [exact Hi | apply Z.eqb_eq; exact Hm]. }
      intros [[i [Hi [Hm [Eq En]]]] | [[i [Hi [Hm [Hnull ->]]]] | [Hnone _]]].
      * exists (Some h). rewrite <- Eq. split; [apply Hcell; assumption|].
        rewrite Eq. symmetry. apply have_of_number. exact En.
      * exists (Inventory.on_hand_qty i). split; [apply Hcell; assumption|].
        destruct Hnull as [->|[q [-> En]]]; [reflexivity|].
        symmetry. apply have_of_nan. exact En.
      * exfalso. assert (Hin : In i0 (filter (fun i => Inventory.material_id i =? m) inv_df))
          by (rewrite E; simpl; tauto).
        apply filter_In in Hin. destruct Hin as [Hi Hm]. apply Z.eqb_eq in Hm.
        exact (Hnone i0 Hi Hm).
Qed.

Lemma check_bom_row_In (inv_df : list Inventory.row) (allocated : Z) (b : Bom.row)
    (blk : blocker) :
  In blk (check_bom_row inv_df allocated b) <->
  exists h, stock_of inv_df (Bom.material_id b) h /\
            PrimFloat.ltb h (needed_qty b allocated) = true /\
            blk = ShortBy (Bom.material_name b)
                    (PrimFloat.sub (needed_qty b allocated) h)
                    (Bom.supplier_lead_time_days b).
Proof.
  unfold check_bom_row. rewrite in_flat_map. split.
  - intros [cell [Hcell Hin]].
    destruct (PrimFloat.ltb (have_of cell) (needed_qty b allocated)) eqn:E;
      [|destruct Hin].
    destruct Hin as [<-|[]]. exists (have_of cell).
    split; [apply merged_on_hand_In; exists cell; tauto|].
    split; [exact E | reflexivity].
  - intros [h [Hst [Hlt ->]]]. apply merged_on_hand_In in Hst.
    destruct Hst as [cell [Hcell ->]]. exists cell. split; [exact Hcell|].
    rewrite Hlt. simpl. tauto.
Qed.

Lemma material_check_In (bom_df : list Bom.row) (inv_df : list Inventory.row)
    (p allocated : Z) (blk : blocker) :
  (exists b, In b bom_df /\ Bom.product_id b = p) ->
  (In blk (material_check bom_df inv_df p allocated) <->
   exists b h,
     In b bom_df /\ Bom.product_id b = p /\
     stock_of inv_df (Bom.material_id b) h /\
     PrimFloat.ltb h (PrimFloat.mul (Bom.qty_per_case b) (float_of_Z allocated)) = true /\
     blk = ShortBy (Bom.material_name b)
             (PrimFloat.sub (PrimFloat.mul (Bom.qty_per_case b) (float_of_Z allocated)) h)
             (Bom.supplier_lead_time_days b)).
Proof.
  intros [b0 [Hb0 Hp0]]. unfold material_check.
  assert (Hin0 : In b0 (sku_bom bom_df p))
    by (apply filter_In; split; [exact Hb0 | apply Z.eqb_eq; exact Hp0]).
  destruct (sku_bom bom_df p) as [|b1 rows] eqn:E; [destruct Hin0|].
  rewrite <- E. clear Hin0. rewrite in_flat_map. split.
  - intros [b [Hb Hblk]]. apply filter_In in Hb. destruct Hb as [Hb Hp].
    apply Z.eqb_eq in Hp. apply check_bom_row_In in Hblk.
    destruct Hblk as [h [Hst [Hlt ->]]]. exists b, h. tauto.
  - intros [b [h [Hb [Hp [Hst [Hlt ->]]]]]]. exists b. split.
    + apply filter_In. split; [exact Hb | apply Z.eqb_eq; exact Hp].
    + apply check_bom_row_In. exists h. tauto.
Qed.

(** ** The claims about [simulate_request] *)

Section Claims.

Variable to_datetime_date : string -> option date.

Local Abbreviation simulate := (simulate_request to_datetime_date).

(** C1 (conservation).  For every snapshot and every request whose due date
    parses, [simulate_request] returns a result in which the sum of
    [allocated_cases] over the plan plus [remaining] equals the requested
    extra cases, and so does [allocated_total + remaining]. *)
Theorem simulate_request_conservation (p extra_cases : Z) (s : string)
    (data : Data) (due : date) :
  to_datetime_date s = Some due ->
  exists r,
    simulate p extra_cases s data = Returned r /\
    Zsum (map Plan.allocated_cases (plan_rows r)) + remaining r = extra_cases /\
    allocated_total r + remaining r = extra_cases.
Proof.
  intros Hd.
  destruct (simulate_request_returns to_datetime_date p extra_cases s data due Hd)
    as [r [Hr [Hrem [Hplan [Htot _]]]]].
  exists r. split; [exact Hr|].
  destruct (allocate_inv data p extra_cases due) as [Hsum _].
  rewrite Hplan, Hrem, Htot, Hrem. split; [exact Hsum | lia].
Qed.

(** C2, as the code has it.  [simulate_request] does not validate the
    requested quantity: for every request with [extra_cases <= 0] whose due
    date parses it returns an ordinary result, with an empty plan, nothing
    allocated, [remaining] equal to the requested quantity, and
    [can_fulfill] true exactly when the material blocker list is empty. *)
Theorem simulate_request_nonpositive_returns (p extra_cases : Z) (s : string)
    (data : Data) (due : date) :
  to_datetime_date s = Some due ->
  extra_cases <= 0 ->
  exists r,
    simulate p extra_cases s data = Returned r /\
    plan_rows r = [] /\ allocated_total r = 0 /\ remaining r = extra_cases /\
    can_fulfill r = is_empty (material_blockers r).
Proof.
  intros Hd Hle.
  destruct (simulate_request_returns to_datetime_date p extra_cases s data due Hd)
    as [r [Hr [Hrem [Hplan [Htot [Hno Hyes]]]]]].
  assert (Ha : allocate data p extra_cases due = (extra_cases, []))
    by (unfold allocate; apply date_loop_done; simpl; exact Hle).
  rewrite Ha in Hrem, Hplan. simpl in Hrem, Hplan.
  exists r. repeat split; try assumption; [lia|].
  destruct (capable_lines (capability data) p) as [|l ls] eqn:E.
  - rewrite (Hno eq_refl). reflexivity.
  - destruct Hyes as [_ Hc]; [discriminate|].
    rewrite Hc, Hrem. apply Z.leb_le in Hle. rewrite Hle. reflexivity.
Qed.

(** C5, as the code has it (feasibility rule).  For every snapshot and every
    request whose due date parses, the result carries what the allocation
    loop leaves as [remaining] and the plan it built as [plan_rows], and as
    [material_blockers] the output of the material check for the allocated
    total (the fixed note of the early return when no line is capable); its
    [can_fulfill] equals [(remaining <= 0) and (material_blockers is empty)],
    which for a request of a non-negative quantity is
    [(remaining == 0) and (material_blockers is empty)].  The plan is
    returned whether the request is fulfilled or not. *)
Theorem simulate_request_feasibility (p extra_cases : Z) (s : string)
    (data : Data) (due : date) :
  to_datetime_date s = Some due ->
  exists r,
    simulate p extra_cases s data = Returned r /\
    remaining r = fst (allocate data p extra_cases due) /\
    plan_rows r = snd (allocate data p extra_cases due) /\
    allocated_total r = Zsum (map Plan.allocated_cases (plan_rows r)) /\
    (capable_lines (capability data) p = [] ->
       material_blockers r = [NoLineCanRun]) /\
    (capable_lines (capability data) p <> [] ->
       material_blockers r
       = material_check (bom data) (inventory data) p (allocated_total r)) /\
    can_fulfill r = (remaining r <=? 0) && is_empty (material_blockers r) /\
    (0 <= extra_cases ->
       can_fulfill r = (remaining r =? 0) && is_empty (material_blockers r)).
Proof.
  intros Hd.
  destruct (simulate_request_returns to_datetime_date p extra_cases s data due Hd)
    as [r [Hr [Hrem [Hplan [Htot [Hno Hyes]]]]]].
  destruct (allocate_inv data p extra_cases due) as [Hsum [_ Hpos]].
  exists r. split; [exact Hr|]. split; [exact Hrem|]. split; [exact Hplan|].
  split; [rewrite Htot, Hplan, Hrem; lia|].
  split; [intros E; rewrite (Hno E); reflexivity|].
  split; [intros E; exact (proj1 (Hyes E))|].
  assert (Hc : can_fulfill r = (remaining r <=? 0) && is_empty (material_blockers r)).
  { destruct (capable_lines (capability data) p) as [|l ls] eqn:E.
    - rewrite (Hno eq_refl). simpl. rewrite andb_false_r. reflexivity.
    - destruct Hyes as [_ Hc]; [discriminate | exact Hc]. }
  split; [exact Hc|]. intros Hnn. rewrite Hc. f_equal.
  specialize (Hpos Hnn). rewrite Hrem.
  destruct (fst (allocate data p extra_cases due) <=? 0) eqn:E1;
    destruct (fst (allocate data p extra_cases due) =? 0) eqn:E2;
    try reflexivity; rewrite ?Z.leb_le, ?Z.leb_gt, ?Z.eqb_eq, ?Z.eqb_neq in *; lia.
Qed.

(** C6 (no-capability short-circuit).  When no capability row exists for the
    requested product and the due date parses, [simulate_request] returns
    the fixed early result: not fulfilled, empty plan, nothing allocated,
    the full request remaining, and the capacity note that no capable line
    was found; the schedule, the lines, the bill of materials and the
    inventory play no part in it. *)
Theorem simulate_request_no_capability (p extra_cases : Z) (s : string)
    (data : Data) (due : date) :
  to_datetime_date s = Some due ->
  (forall c, In c (capability data) -> Capability.product_id c <> p) ->
  simulate p extra_cases s data
  = Returned {| can_fulfill := false;
                allocated_total := 0;
                remaining := extra_cases;
                plan_rows := [];
                material_blockers := [NoLineCanRun];
                capacity_blockers := [NoCapableLineFound];
                message := NoLineCanProduce |}.
Proof.
  intros Hd Hcap.
  apply (simulate_request_incapable to_datetime_date p extra_cases s data due Hd).
  apply capable_lines_none. exact Hcap.
Qed.

(** C9, as the code has it.  When the product has no bill-of-materials row,
    some line is capable of the product and the due date parses, the
    material blocker list of the result is exactly the single note that no
    BOM exists for the SKU, and the request is not fulfilled. *)
Theorem simulate_request_no_bom (p extra_cases : Z) (s : string)
    (data : Data) (due : date) :
  to_datetime_date s = Some due ->
  (exists c, In c (capability data) /\ Capability.product_id c = p) ->
  (forall b, In b (bom data) -> Bom.product_id b <> p) ->
  exists r,
    simulate p extra_cases s data = Returned r /\
    material_blockers r = [NoBomForSku] /\
    can_fulfill r = false.
Proof.
  intros Hd Hcap Hbom.
  destruct (simulate_request_returns to_datetime_date p extra_cases s data due Hd)
    as [r [Hr [_ [_ [_ [_ Hyes]]]]]].
  destruct (Hyes (capable_lines_some _ _ Hcap)) as [Hm Hc].
  assert (Hsku : sku_bom (bom data) p = []).
  { unfold sku_bom. destruct (filter _ (bom data)) as [|b bs] eqn:E; [reflexivity|].
    assert (Hin : In b (filter (fun b => Bom.product_id b =? p) (bom data)))
      by (rewrite E; simpl; tauto).
    apply filter_In in Hin. destruct Hin as [Hin Hp]. apply Z.eqb_eq in Hp.
    exfalso. exact (Hbom b Hin Hp). }
  unfold material_check in Hm. rewrite Hsku in Hm.
  exists r. split; [exact Hr|]. split; [exact Hm|].
  rewrite Hc, Hm. simpl. apply andb_false_r.
Qed.

(** C10 (no scheduled date in the window).  When some line is capable of the
    product, the due date parses and every schedule entry is dated after
    the due date, nothing is allocated whatever the capacities of the lines
    are: the plan is empty, [allocated_total] is 0 and [remaining] is the
    full requested quantity. *)
Theorem simulate_request_empty_window (p extra_cases : Z) (s : string)
    (data : Data) (due : date) :
  to_datetime_date s = Some due ->
  (exists c, In c (capability data) /\ Capability.product_id c = p) ->
  (forall e, In e (schedule data) -> due < Schedule.production_date e) ->
  exists r,
    simulate p extra_cases s data = Returned r /\
    plan_rows r = [] /\ allocated_total r = 0 /\ remaining r = extra_cases /\
    r = compose_result extra_cases due (extra_cases, [])
          (material_check (bom data) (inventory data) p 0).
Proof.
  intros Hd Hcap Hlate.
  pose proof (simulate_request_capable to_datetime_date p extra_cases s data due Hd
                (capable_lines_some _ _ Hcap)) as Hshape.
  destruct (simulate_request_returns to_datetime_date p extra_cases s data due Hd)
    as [r [Hr [Hrem [Hplan [Htot _]]]]].
  assert (Hw : sched_window due (schedule data) = []).
  { destruct (sched_window due (schedule data)) as [|e es] eqn:E; [reflexivity|].
    assert (Hin : In e (sched_window due (schedule data))) by (rewrite E; simpl; tauto).
    apply sched_window_In in Hin. destruct Hin as [Hin Hle].
    specialize (Hlate e Hin). lia. }
  assert (Ha : allocate data p extra_cases due = (extra_cases, []))
    by (unfold allocate; rewrite Hw; reflexivity).
  rewrite Ha in Hrem, Hplan, Hshape. simpl in Hrem, Hplan.
  cbn [fst] in Hshape. rewrite Z.sub_diag, Hr in Hshape.
  exists r. repeat split; try assumption; [lia|]. congruence.
Qed.

(** C3 (steps and firm inviolability).  For every snapshot whose planned
    quantities are non-negative and every request whose due date parses,
    every step of the returned plan has
    [allocated_cases = used_headroom + bumped_flexible] with both parts
    non-negative, and its [bumped_flexible] is at most the sum of the
    non-firm planned quantities of that line on that date in the snapshot. *)
Theorem simulate_request_steps (p extra_cases : Z) (s : string)
    (data : Data) (due : date) :
  to_datetime_date s = Some due ->
  (forall e, In e (schedule data) -> 0 <= Schedule.planned_qty_cases e) ->
  exists r,
    simulate p extra_cases s data = Returned r /\
    forall row, In row (plan_rows r) ->
      Plan.allocated_cases row = Plan.used_headroom row + Plan.bumped_flexible row /\
      0 <= Plan.used_headroom row /\
      0 <= Plan.bumped_flexible row /\
      Plan.bumped_flexible row
      <= nonfirm_planned (schedule data) (Plan.line_id row) (Plan.production_date row).
Proof.
  intros Hd Hqty.
  destruct (simulate_request_returns to_datetime_date p extra_cases s data due Hd)
    as [r [Hr [_ [Hplan _]]]].
  exists r. split; [exact Hr|]. intros row Hin. rewrite Hplan in Hin.
  destruct (allocate_inv data p extra_cases due) as [_ [Hrows _]].
  destruct (Hrows row Hin) as [d [l [rem [Hdin [_ Hstep]]]]].
  apply window_dates_le in Hdin.
  destruct Hstep as [cap_row [rest [_ Hstep]]]. cbv zeta in Hstep.
  rewrite (todays_runs_window due (schedule data) l d Hdin) in Hstep.
  destruct Hstep as [Hpos [Hrem ->]]. simpl.
  rewrite <- flex_cases_todays_runs.
  assert (Hflex : 0 <= flex_cases (todays_runs (schedule data) l d)).
  { apply flex_cases_nonneg. intros e He. apply filter_In in He. apply Hqty. tauto. }
  unfold headroom in *. lia.
Qed.

(** C7 (due-date boundary).  The window is exactly the set of schedule
    entries dated on or before the due date: an entry dated on the due date
    is in it and one dated the day after is not.  Entries outside the window
    are never considered: two snapshots that differ only in entries dated
    after the due date get the same outcome, and every step of a returned
    plan is dated on or before the due date, on a date of some entry of the
    window. *)
Theorem simulate_request_due_date_window (p extra_cases : Z) (s : string)
    (data : Data) (due : date) :
  to_datetime_date s = Some due ->
  (forall e, In e (sched_window due (schedule data)) <->
             In e (schedule data) /\ Schedule.production_date e <= due) /\
  (forall e, In e (schedule data) -> Schedule.production_date e = due ->
             In e (sched_window due (schedule data))) /\
  (forall e, Schedule.production_date e = due + 1 ->
             ~ In e (sched_window due (schedule data))) /\
  (forall schedule', sched_window due schedule' = sched_window due (schedule data) ->
     simulate p extra_cases s (with_schedule data schedule')
     = simulate p extra_cases s data) /\
  exists r,
    simulate p extra_cases s data = Returned r /\
    forall row, In row (plan_rows r) ->
      Plan.production_date row <= due /\
      exists e, In e (schedule data) /\
                Schedule.production_date e = Plan.production_date row.
Proof.
  intros Hd. split; [intros e; apply sched_window_In|].
  split; [intros e He Hdate; apply sched_window_In; split; [exact He|lia]|].
  split; [intros e Hdate He; apply sched_window_In in He; lia|].
  split.
  - intros schedule' Hw. unfold simulate_request. rewrite Hd.
    unfold allocate. simpl. rewrite Hw. reflexivity.
  - destruct (simulate_request_returns to_datetime_date p extra_cases s data due Hd)
      as [r [Hr [_ [Hplan _]]]].
    exists r. split; [exact Hr|]. intros row Hin. rewrite Hplan in Hin.
    destruct (allocate_inv data p extra_cases due) as [_ [Hrows _]].
    destruct (Hrows row Hin) as [d [l [rem [Hdin [_ Hstep]]]]].
    destruct Hstep as [cap_row [rest [_ Hstep]]]. cbv zeta in Hstep.
    destruct Hstep as [_ [_ ->]]. simpl.
    split; [exact (window_dates_le _ _ _ Hdin)|].
    apply window_dates_In in Hdin. destruct Hdin as [e [He Hdate]].
    apply sched_window_In in He. exists e. tauto.
Qed.

(** C4 (material math).  When the product has a bill-of-materials row, some
    line is capable of it and the due date parses, the material blockers of
    the result are exactly the shortages of the BOM rows of the product: a
    row with on-hand stock [h] (0 when the material has no inventory record)
    is reported exactly when [qty_per_case * allocated_total > h], and the
    reported amount is [qty_per_case * allocated_total - h], where
    [allocated_total] is the quantity placed by the loop and the product,
    the comparison and the difference are those of float64. *)
Theorem simulate_request_material_math (p extra_cases : Z) (s : string)
    (data : Data) (due : date) :
  to_datetime_date s = Some due ->
  (exists c, In c (capability data) /\ Capability.product_id c = p) ->
  (exists b, In b (bom data) /\ Bom.product_id b = p) ->
  exists r,
    simulate p extra_cases s data = Returned r /\
    allocated_total r = extra_cases - fst (allocate data p extra_cases due) /\
    forall blk, In blk (material_blockers r) <->
      exists b h,
        In b (bom data) /\ Bom.product_id b = p /\
        stock_of (inventory data) (Bom.material_id b) h /\
        PrimFloat.ltb h (PrimFloat.mul (Bom.qty_per_case b)
                           (float_of_Z (allocated_total r))) = true /\
        blk = ShortBy (Bom.material_name b)
                (PrimFloat.sub (PrimFloat.mul (Bom.qty_per_case b)
                                  (float_of_Z (allocated_total r))) h)
                (Bom.supplier_lead_time_days b).
Proof.
  intros Hd Hcap Hbom.
  destruct (simulate_request_returns to_datetime_date p extra_cases s data due Hd)
    as [r [Hr [Hrem [_ [Htot [_ Hyes]]]]]].
  destruct (Hyes (capable_lines_some _ _ Hcap)) as [Hm _].
  exists r. split; [exact Hr|]. split; [rewrite Htot, Hrem; reflexivity|].
  intros blk. rewrite Hm. apply material_check_In. exact Hbom.
Qed.

End Claims.

(** The headroom a step draws on is the clamped headroom of its line-day in
    the snapshot, computed from the first row of the line in the lines table;
    a step on an over-committed day uses none. *)
Lemma plan_row_headroom (data : Data) (p extra_cases : Z) (due : date)
    (row : Plan.row) :
  In row (snd (allocate data p extra_cases due)) ->
  exists cap_row rest,
    filter (fun r => Lines.line_id r =? Plan.line_id row) (lines data) = cap_row :: rest /\
    let runs := todays_runs (schedule data) (Plan.line_id row) (Plan.production_date row) in
    let h := headroom (Lines.daily_capacity_cases cap_row) runs in
    Plan.used_headroom row = Z.min h (Plan.allocated_cases row) /\
    0 <= Plan.used_headroom row <= h /\
    0 < Plan.allocated_cases row <= h + flex_cases runs /\
    (Lines.daily_capacity_cases cap_row <= total_planned runs ->
     Plan.used_headroom row = 0).
Proof.
  intros Hin.
  destruct (allocate_inv data p extra_cases due) as [_ [Hrows _]].
  destruct (Hrows row Hin) as [d [l [rem [Hdin [_ Hstep]]]]].
  apply window_dates_le in Hdin.
  destruct Hstep as [cap_row [rest [Hf Hstep]]]. cbv zeta in Hstep.
  rewrite (todays_runs_window due (schedule data) l d Hdin) in Hstep.
  destruct Hstep as [Hpos [Hrem ->]]. simpl.
  exists cap_row, rest. split; [exact Hf|]. unfold headroom in *. lia.
Qed.

Lemma total_planned_todays_runs (sch : list Schedule.row) (l : Z) (d : date) :
  total_planned (todays_runs sch l d) = planned_total sch l d.
Proof. reflexivity. Qed.

Section HeadroomClaim.

Variable to_datetime_date : string -> option date.

(** C8 (headroom).  On every line-day the loop body runs for, dated on or
    before the due date on a line known to the lines table, the body acts on
    the headroom [max(0, daily_capacity - total planned on that line and
    date in the snapshot)]: this value is never negative, it is 0 when the
    line-day is over-committed, the line-day is skipped when it plus the
    flexible cases is not positive, and otherwise the appended step takes
    its [used_headroom] from it first.  Accordingly every row of a returned
    plan uses at most that headroom, and none on an over-committed day,
    where all its cases come from bumped flexible runs. *)
Theorem simulate_request_headroom_clamped (p extra_cases : Z) (s : string)
    (data : Data) (due : date) :
  to_datetime_date s = Some due ->
  (forall d l cap st,
     d <= due -> line_capacity (lines data) l = Some cap ->
     let H := Z.max 0 (cap - planned_total (schedule data) l d) in
     let possible_today := H + nonfirm_planned (schedule data) l d in
     let allocate_now := Z.min possible_today (fst st) in
     0 <= H /\
     (cap <= planned_total (schedule data) l d -> H = 0) /\
     line_day (lines data) (sched_window due (schedule data)) d l st
     = if possible_today <=? 0 then st
       else (fst st - allocate_now,
             snd st ++ [Plan.mk l d allocate_now (Z.min H allocate_now)
                          (Z.max 0 (allocate_now - H))])) /\
  exists r,
    simulate_request to_datetime_date p extra_cases s data = Returned r /\
    forall row, In row (plan_rows r) ->
      exists cap,
        line_capacity (lines data) (Plan.line_id row) = Some cap /\
        let H := Z.max 0 (cap - planned_total (schedule data) (Plan.line_id row)
                                  (Plan.production_date row)) in
        Plan.used_headroom row = Z.min H (Plan.allocated_cases row) /\
        0 <= Plan.used_headroom row <= H /\
        (cap <= planned_total (schedule data) (Plan.line_id row)
                  (Plan.production_date row) ->
         Plan.used_headroom row = 0 /\
         Plan.bumped_flexible row = Plan.allocated_cases row).
Proof.
  intros Hd. split.
  - intros d l cap st Hle Hcap. cbv zeta.
    split; [lia|]. split; [lia|].
    destruct st as [rem plan]. unfold line_day. unfold line_capacity in Hcap.
    destruct (filter (fun r => Lines.line_id r =? l) (lines data)) as [|cap_row rest];
      [discriminate|].
    injection Hcap as Hcap. cbv zeta.
    rewrite (todays_runs_window due (schedule data) l d Hle).
    unfold headroom.
    rewrite total_planned_todays_runs, flex_cases_todays_runs, Hcap.
    rewrite (Z.max_comm (cap - planned_total (schedule data) l d) 0).
    reflexivity.
  - destruct (simulate_request_returns to_datetime_date p extra_cases s data due Hd)
      as [r [Hr [_ [Hplan _]]]].
    exists r. split; [exact Hr|]. intros row Hin. rewrite Hplan in Hin.
    destruct (allocate_inv data p extra_cases due) as [_ [Hrows _]].
    destruct (Hrows row Hin) as [d [l [rem [Hdin [_ Hstep]]]]].
    apply window_dates_le in Hdin.
    destruct Hstep as [cap_row [rest [Hf Hstep]]]. cbv zeta in Hstep.
    rewrite (todays_runs_window due (schedule data) l d Hdin) in Hstep.
    unfold headroom in Hstep. rewrite total_planned_todays_runs in Hstep.
    destruct Hstep as [Hpos [Hrem ->]]. simpl.
    exists (Lines.daily_capacity_cases cap_row).
    unfold line_capacity. rewrite Hf. split; [reflexivity|]. lia.
Qed.

End HeadroomClaim.

(** With one inventory record per material the on-hand stock is a function,
    and the material check is one test per BOM row, in BOM order. *)
Lemma filter_key_unique (inv_df : list Inventory.row) (m : Z) :
  NoDup (map Inventory.material_id inv_df) ->
  (List.length (filter (fun i => (Inventory.material_id i =? m)%Z) inv_df) <= 1)%nat.
Proof.
  induction inv_df as [|i inv_df IH]; simpl; intros Hnd; [lia|].
  inversion Hnd as [|x xs Hnotin Hnd']; subst.
  destruct (Inventory.material_id i =? m) eqn:E; [|apply IH; exact Hnd'].
  apply Z.eqb_eq in E. simpl.
  destruct (filter (fun i0 => Inventory.material_id i0 =? m) inv_df) as [|j js] eqn:Ej;
    [simpl; lia|].
  exfalso. apply Hnotin.
  assert (Hj : In j (filter (fun i0 => Inventory.material_id i0 =? m) inv_df))
    by (rewrite Ej; simpl; tauto).
  apply filter_In in Hj. destruct Hj as [Hj Hm]. apply Z.eqb_eq in Hm.
  rewrite E, <- Hm. apply in_map. exact Hj.
Qed.

Lemma check_bom_row_keyed (inv_df : list Inventory.row) (allocated : Z) (b : Bom.row) :
  NoDup (map Inventory.material_id inv_df) ->
  check_bom_row inv_df allocated b
  = if PrimFloat.ltb (on_hand inv_df (Bom.material_id b)) (needed_qty b allocated)
    then [ShortBy (Bom.material_name b)
            (PrimFloat.sub (needed_qty b allocated) (on_hand inv_df (Bom.material_id b)))
            (Bom.supplier_lead_time_days b)]
    else [].
Proof.
  intros Hnd. pose proof (filter_key_unique inv_df (Bom.material_id b) Hnd) as Hlen.
  unfold check_bom_row, merged_on_hand, on_hand.
  destruct (filter (fun i => Inventory.material_id i =? Bom.material_id b) inv_df)
    as [|i [|j js]]; simpl in *; [| |lia]; rewrite app_nil_r.
  - reflexivity.
  - unfold have_of, notnull. destruct (Inventory.on_hand_qty i) as [q|]; [|reflexivity].
    destruct (PrimFloat.is_nan q); reflexivity.
Qed.

(** ** The claims the code does not meet, at concrete inputs *)

(** C2 fails as stated: a request for 0 cases is not rejected; it is returned
    as fulfilled, with an empty plan. *)
Lemma simulate_request_zero_not_rejected :
  0 <= 0 /\
  (forall e, simulate_request iso_date 1 0 "2025-01-03" demo <> Raised e) /\
  simulate_request iso_date 1 0 "2025-01-03" demo
  = Returned {| can_fulfill := true;
                allocated_total := 0;
                remaining := 0;
                plan_rows := [];
                material_blockers := [];
                capacity_blockers := [];
                message := Approved 0 day1 |}.
Proof.
  split; [lia|]. split; [intros e; vm_compute; discriminate | vm_compute; reflexivity].
Qed.

(** C9 fails as stated: for a product with no bill of materials and no capable
    line the material blocker list is the note of the early return, not the
    note that no BOM exists. *)
Lemma simulate_request_no_bom_no_line :
  (forall b, In b (bom demo_bare) -> Bom.product_id b <> 1) /\
  exists r,
    simulate_request iso_date 1 8000 "2025-01-03" demo_bare = Returned r /\
    material_blockers r = [NoLineCanRun] /\
    material_blockers r <> [NoBomForSku].
Proof.
  split; [intros b []|].
  eexists. split; [vm_compute; reflexivity|]. simpl. split; [reflexivity|discriminate].
Qed.

(** C5 fails as stated: a request for -5 cases is returned as fulfilled with
    nothing short of material, although its [remaining] is -5 and not 0. *)
Lemma simulate_request_negative_fulfilled :
  exists r,
    simulate_request iso_date 1 (-5) "2025-01-03" demo = Returned r /\
    can_fulfill r = true /\ remaining r = -5 /\ material_blockers r = [] /\
    can_fulfill r <> (remaining r =? 0) && is_empty (material_blockers r).
Proof.
  eexists. split; [vm_compute; reflexivity|]. simpl.
  repeat split; discriminate.
Qed.

(** ** Instances on the example snapshots *)

Lemma simulate_request_conservation_witness :
  iso_date "2025-01-03" = Some day1 /\
  exists r,
    simulate_request iso_date 1 12000 "2025-01-03" demo = Returned r /\
    Zsum (map Plan.allocated_cases (plan_rows r)) + remaining r = 12000 /\
    allocated_total r + remaining r = 12000.
Proof.
  split; [reflexivity|].
  apply (simulate_request_conservation iso_date 1 12000 "2025-01-03" demo day1).
  reflexivity.
Defined.

Lemma simulate_request_nonpositive_returns_witness :
  iso_date "2025-01-03" = Some day1 /\ -5 <= 0 /\
  exists r,
    simulate_request iso_date 1 (-5) "2025-01-03" demo = Returned r /\
    plan_rows r = [] /\ allocated_total r = 0 /\ remaining r = -5 /\
    can_fulfill r = is_empty (material_blockers r).
Proof.
  split; [reflexivity|]. split; [lia|].
  apply (simulate_request_nonpositive_returns iso_date 1 (-5) "2025-01-03" demo day1);
    [reflexivity | lia].
Defined.

Lemma simulate_request_steps_witness :
  iso_date "2025-01-03" = Some day1 /\
  (forall e, In e (schedule demo) -> 0 <= Schedule.planned_qty_cases e) /\
  exists r,
    simulate_request iso_date 1 8000 "2025-01-03" demo = Returned r /\
    forall row, In row (plan_rows r) ->
      Plan.allocated_cases row = Plan.used_headroom row + Plan.bumped_flexible row /\
      0 <= Plan.used_headroom row /\
      0 <= Plan.bumped_flexible row /\
      Plan.bumped_flexible row
      <= nonfirm_planned (schedule demo) (Plan.line_id row) (Plan.production_date row).
Proof.
  assert (Hq : forall e, In e (schedule demo) -> 0 <= Schedule.planned_qty_cases e)
    by (intros e [<-|[]]; simpl; lia).
  split; [reflexivity|]. split; [exact Hq|].
  apply (simulate_request_steps iso_date 1 8000 "2025-01-03" demo day1);
    [reflexivity | exact Hq].
Defined.

Lemma simulate_request_material_math_witness :
  iso_date "2025-01-03" = Some day1 /\
  (exists c, In c (capability demo_short) /\ Capability.product_id c = 1) /\
  (exists b, In b (bom demo_short) /\ Bom.product_id b = 1) /\
  exists r,
    simulate_request iso_date 1 1600 "2025-01-03" demo_short = Returned r /\
    allocated_total r = 1600 - fst (allocate demo_short 1 1600 day1) /\
    forall blk, In blk (material_blockers r) <->
      exists b h,
        In b (bom demo_short) /\ Bom.product_id b = 1 /\
        stock_of (inventory demo_short) (Bom.material_id b) h /\
        PrimFloat.ltb h (PrimFloat.mul (Bom.qty_per_case b)
                           (float_of_Z (allocated_total r))) = true /\
        blk = ShortBy (Bom.material_name b)
                (PrimFloat.sub (PrimFloat.mul (Bom.qty_per_case b)
                                  (float_of_Z (allocated_total r))) h)
                (Bom.supplier_lead_time_days b).
Proof.
  assert (Hc : exists c, In c (capability demo_short) /\ Capability.product_id c = 1)
    by (eexists; split; [left; reflexivity | reflexivity]).
  assert (Hb : exists b, In b (bom demo_short) /\ Bom.product_id b = 1)
    by (eexists; split; [left; reflexivity | reflexivity]).
  split; [reflexivity|]. split; [exact Hc|]. split; [exact Hb|].
  apply (simulate_request_material_math iso_date 1 1600 "2025-01-03" demo_short day1);
    [reflexivity | exact Hc | exact Hb].
Defined.

Lemma simulate_request_feasibility_witness :
  iso_date "2025-01-03" = Some day1 /\
  exists r,
    simulate_request iso_date 1 12000 "2025-01-03" demo_short = Returned r /\
    remaining r = fst (allocate demo_short 1 12000 day1) /\
    plan_rows r = snd (allocate demo_short 1 12000 day1) /\
    allocated_total r = Zsum (map Plan.allocated_cases (plan_rows r)) /\
    (capable_lines (capability demo_short) 1 = [] ->
       material_blockers r = [NoLineCanRun]) /\
    (capable_lines (capability demo_short) 1 <> [] ->
       material_blockers r
       = material_check (bom demo_short) (inventory demo_short) 1 (allocated_total r)) /\
    can_fulfill r = (remaining r <=? 0) && is_empty (material_blockers r) /\
    (0 <= 12000 ->
       can_fulfill r = (remaining r =? 0) && is_empty (material_blockers r)).
Proof.
  split; [reflexivity|].
  apply (simulate_request_feasibility iso_date 1 12000 "2025-01-03" demo_short day1).
  reflexivity.
Defined.

Lemma simulate_request_headroom_clamped_witness :
  iso_date "2025-01-03" = Some day1 /\
  exists r,
    simulate_request iso_date 1 5000 "2025-01-03" demo_overcommitted = Returned r /\
    forall row, In row (plan_rows r) ->
      exists cap,
        line_capacity (lines demo_overcommitted) (Plan.line_id row) = Some cap /\
        let H := Z.max 0 (cap - planned_total (schedule demo_overcommitted)
                                  (Plan.line_id row) (Plan.production_date row)) in
        Plan.used_headroom row = Z.min H (Plan.allocated_cases row) /\
        0 <= Plan.used_headroom row <= H /\
        (cap <= planned_total (schedule demo_overcommitted) (Plan.line_id row)
                  (Plan.production_date row) ->
         Plan.used_headroom row = 0 /\
         Plan.bumped_flexible row = Plan.allocated_cases row).
Proof.
  split; [reflexivity|].
  apply (simulate_request_headroom_clamped iso_date 1 5000 "2025-01-03"
           demo_overcommitted day1).
  reflexivity.
Defined.

Lemma simulate_request_no_capability_witness :
  iso_date "2025-01-03" = Some day1 /\
  (forall c, In c (capability demo_bare) -> Capability.product_id c <> 1) /\
  simulate_request iso_date 1 8000 "2025-01-03" demo_bare
  = Returned {| can_fulfill := false;
                allocated_total := 0;
                remaining := 8000;
                plan_rows := [];
                material_blockers := [NoLineCanRun];
                capacity_blockers := [NoCapableLineFound];
                message := NoLineCanProduce |}.
Proof.
  split; [reflexivity|]. split; [intros c []|].
  apply (simulate_request_no_capability iso_date 1 8000 "2025-01-03" demo_bare day1);
    [reflexivity | intros c []].
Defined.

Lemma simulate_request_due_date_window_witness :
  iso_date "2025-01-03" = Some day1 /\
  In (Schedule.mk 1 day1 2 6000 false) (sched_window day1 (schedule demo)) /\
  ~ In (Schedule.mk 1 (day1 + 1) 2 6000 false) (sched_window day1 (schedule demo_late)) /\
  exists r,
    simulate_request iso_date 1 8000 "2025-01-03" demo = Returned r /\
    forall row, In row (plan_rows r) ->
      Plan.production_date row <= day1 /\
      exists e, In e (schedule demo) /\
                Schedule.production_date e = Plan.production_date row.
Proof.
  pose proof (simulate_request_due_date_window iso_date 1 8000 "2025-01-03" demo day1
                eq_refl) as [_ [Hon [_ [_ Hplan]]]].
  pose proof (simulate_request_due_date_window iso_date 1 8000 "2025-01-03" demo_late day1
                eq_refl) as [_ [_ [Hafter _]]].
  split; [reflexivity|].
  split; [apply Hon; [left; reflexivity | reflexivity]|].
  split; [apply Hafter; reflexivity | exact Hplan].
Defined.

Lemma simulate_request_no_bom_witness :
  iso_date "2025-01-03" = Some day1 /\
  (exists c, In c (capability demo_no_bom) /\ Capability.product_id c = 1) /\
  (forall b, In b (bom demo_no_bom) -> Bom.product_id b <> 1) /\
  exists r,
    simulate_request iso_date 1 8000 "2025-01-03" demo_no_bom = Returned r /\
    material_blockers r = [NoBomForSku] /\
    can_fulfill r = false.
Proof.
  assert (Hc : exists c, In c (capability demo_no_bom) /\ Capability.product_id c = 1)
    by (eexists; split; [left; reflexivity | reflexivity]).
  split; [reflexivity|]. split; [exact Hc|]. split; [intros b []|].
  apply (simulate_request_no_bom iso_date 1 8000 "2025-01-03" demo_no_bom day1);
    [reflexivity | exact Hc | intros b []].
Defined.

Lemma simulate_request_empty_window_witness :
  iso_date "2025-01-03" = Some day1 /\
  (exists c, In c (capability demo_late) /\ Capability.product_id c = 1) /\
  (forall e, In e (schedule demo_late) -> day1 < Schedule.production_date e) /\
  exists r,
    simulate_request iso_date 1 8000 "2025-01-03" demo_late = Returned r /\
    plan_rows r = [] /\ allocated_total r = 0 /\ remaining r = 8000 /\
    r = compose_result 8000 day1 (8000, [])
          (material_check (bom demo_late) (inventory demo_late) 1 0).
Proof.
  assert (Hc : exists c, In c (capability demo_late) /\ Capability.product_id c = 1)
    by (eexists; split; [left; reflexivity | reflexivity]).
  assert (Hl : forall e, In e (schedule demo_late) -> day1 < Schedule.production_date e)
    by (intros e [<-|[]]; vm_compute; reflexivity).
  split; [reflexivity|]. split; [exact Hc|]. split; [exact Hl|].
  apply (simulate_request_empty_window iso_date 1 8000 "2025-01-03" demo_late day1);
    [reflexivity | exact Hc | exact Hl].
Defined.

(** ** The scenarios of the specification, evaluated *)

(** Scenario 1: a firm run of 6,000 on a line of 10,000; 3,000 cases fit in
    the headroom. *)
Example scenario_headroom_only :
  exists r,
    simulate_request iso_date 1 3000 "2025-01-03" demo_firm = Returned r /\
    plan_rows r = [Plan.mk 1 day1 3000 3000 0] /\
    remaining r = 0 /\ can_fulfill r = true.
Proof. eexists. split; [vm_compute; reflexivity|]. simpl. repeat split. Qed.

(** Scenario 2: a flexible run of 6,000; 8,000 cases take 4,000 of headroom
    and bump 4,000. *)
Example scenario_bump_flexible :
  exists r,
    simulate_request iso_date 1 8000 "2025-01-03" demo = Returned r /\
    plan_rows r = [Plan.mk 1 day1 8000 4000 4000] /\
    remaining r = 0 /\ can_fulfill r = true.
Proof. eexists. split; [vm_compute; reflexivity|]. simpl. repeat split. Qed.

(** Scenario 4: capacity suffices, 800 units of material are needed and 500
    are on hand: not fulfilled, short by 300. *)
Example scenario_material_short :
  exists r,
    simulate_request iso_date 1 1600 "2025-01-03" demo_short = Returned r /\
    remaining r = 0 /\ can_fulfill r = false /\
    material_blockers r = [ShortBy "Sugar" 300%float 7].
Proof.
  eexists. split; [vm_compute; reflexivity|]. simpl. repeat split.
Qed.

(** A need that float64 rounds onto the stock is not a shortage: ten cases
    at the float nearest to 0.1 per case need exactly 1.0, which is on hand. *)
Example scenario_rounded_need :
  exists r,
    simulate_request iso_date 1 10 "2025-01-03" demo_tenth = Returned r /\
    allocated_total r = 10 /\ material_blockers r = [] /\ can_fulfill r = true.
Proof.
  eexists. split; [vm_compute; reflexivity|]. simpl. repeat split.
Qed.

(** An over-committed day: 14,000 cases planned on a line of 10,000 leave no
    headroom, and the 5,000 cases allocated all come from the flexible run. *)
Example scenario_overcommitted :
  exists r,
    simulate_request iso_date 1 5000 "2025-01-03" demo_overcommitted = Returned r /\
    plan_rows r = [Plan.mk 1 day1 5000 0 5000] /\ remaining r = 0.
Proof.
  eexists. split; [vm_compute; reflexivity|]. simpl. repeat split.
Qed.

(** The text of a bar keeps the first 15 characters of the product name. *)
Example scenario_bar_text :
  map Bar.text (map gantt_bar demo_gantt)
  = ["Cola<br>5000c"; "Sparkling Lemon<br>2500c"; "Cola<br>1000c"]%string.
Proof. vm_compute. reflexivity. Qed.

(** The data invariants matter: a negative flexible quantity makes the
    non-firm total of a line-day negative, below the [bumped_flexible] of
    its step. *)
Example negative_quantity_below_bumped :
  exists r row,
    simulate_request iso_date 1 10 "2025-01-03" demo_negative = Returned r /\
    plan_rows r = [row] /\
    Plan.bumped_flexible row = 0 /\
    nonfirm_planned (schedule demo_negative) (Plan.line_id row)
      (Plan.production_date row) = -3.
Proof.
  eexists. eexists. split; [vm_compute; reflexivity|]. simpl.
  split; [reflexivity|]. split; reflexivity.
Qed.

(** * Further properties of the allocation loop *)

(** ** What the loops leave to place *)

Lemma line_day_capacity_nonneg (lines_df : list Lines.row) (sch : list Schedule.row)
    (l : Z) (d : date) :
  0 <= line_day_capacity lines_df sch l d.
Proof. unfold line_day_capacity. destruct (line_capacity lines_df l); cbv zeta; lia. Qed.

Lemma line_day_capacity_window (lines_df : list Lines.row) (sch : list Schedule.row)
    (due : date) (l : Z) (d : date) :
  d <= due ->
  line_day_capacity lines_df (sched_window due sch) l d
  = line_day_capacity lines_df sch l d.
Proof.
  intros Hd. unfold line_day_capacity. rewrite (todays_runs_window due sch l d Hd).
  reflexivity.
Qed.

Lemma line_day_remaining (lines_df : list Lines.row) (w : list Schedule.row)
    (d : date) (l : Z) (st : alloc_state) :
  0 < fst st ->
  fst (line_day lines_df w d l st)
  = Z.max 0 (fst st - line_day_capacity lines_df w l d).
Proof.
  destruct st as [rem plan]. simpl. intros Hpos.
  unfold line_day, line_day_capacity, line_capacity.
  destruct (filter (fun r => Lines.line_id r =? l) lines_df) as [|cap_row rest];
    [simpl; lia|].
  cbv zeta.
  destruct (headroom (Lines.daily_capacity_cases cap_row) (todays_runs w l d)
            + flex_cases (todays_runs w l d) <=? 0) eqn:E.
  - apply Z.leb_le in E. simpl. lia.
  - apply Z.leb_gt in E. simpl. lia.
Qed.

Lemma capacities_nonneg (lines_df : list Lines.row) (w : list Schedule.row)
    (d : date) (ls : list Z) :
  0 <= Zsum (map (fun l => line_day_capacity lines_df w l d) ls).
Proof.
  apply Zsum_nonneg. intros x Hx. apply in_map_iff in Hx.
  destruct Hx as [l [<- _]]. apply line_day_capacity_nonneg.
Qed.

Lemma line_loop_remaining (lines_df : list Lines.row) (w : list Schedule.row)
    (d : date) (ls : list Z) :
  forall st, 0 <= fst st ->
  fst (line_loop lines_df w d ls st)
  = Z.max 0 (fst st - Zsum (map (fun l => line_day_capacity lines_df w l d) ls)).
Proof.
  induction ls as [|l ls IH]; intros st Hst; simpl; [lia|].
  pose proof (line_day_capacity_nonneg lines_df w l d) as Hc.
  pose proof (capacities_nonneg lines_df w d ls) as Hs.
  destruct (fst st <=? 0) eqn:E.
  - apply Z.leb_le in E. lia.
  - apply Z.leb_gt in E. rewrite IH; rewrite (line_day_remaining _ _ _ _ _ E); lia.
Qed.

Lemma date_loop_remaining (lines_df : list Lines.row) (w : list Schedule.row)
    (capable : list Z) (ds : list date) :
  forall st, 0 <= fst st ->
  fst (date_loop lines_df w capable ds st)
  = Z.max 0 (fst st
             - Zsum (map (fun dl => line_day_capacity lines_df w (snd dl) (fst dl))
                       (list_prod ds capable))).
Proof.
  induction ds as [|d ds IH]; intros st Hst; simpl; [lia|].
  rewrite map_app, Zsum_app, map_map. simpl.
  pose proof (capacities_nonneg lines_df w d capable) as Hc.
  assert (Hs : 0 <= Zsum (map (fun dl => line_day_capacity lines_df w (snd dl) (fst dl))
                            (list_prod ds capable))).
  { apply Zsum_nonneg. intros x Hx. apply in_map_iff in Hx.
    destruct Hx as [dl [<- _]]. apply line_day_capacity_nonneg. }
  destruct (fst st <=? 0) eqn:E.
  - apply Z.leb_le in E. lia.
  - rewrite IH; rewrite (line_loop_remaining _ _ _ _ _ Hst); lia.
Qed.

Lemma allocate_remaining (data : Data) (p extra_cases : Z) (due : date) :
  0 <= extra_cases ->
  fst (allocate data p extra_cases due)
  = Z.max 0 (extra_cases - window_capacity data p due).
Proof.
  intros Hnn. unfold allocate. rewrite date_loop_remaining by (simpl; exact Hnn).
  simpl. unfold window_capacity, visited_line_days. do 3 f_equal.
  apply map_ext_in. intros [d l] Hin. apply in_prod_iff in Hin. simpl.
  apply line_day_capacity_window. apply (window_dates_le _ (schedule data)). tauto.
Qed.

Lemma window_capacity_nonneg (data : Data) (p : Z) (due : date) :
  0 <= window_capacity data p due.
Proof.
  unfold window_capacity. apply Zsum_nonneg. intros x Hx. apply in_map_iff in Hx.
  destruct Hx as [dl [<- _]]. apply line_day_capacity_nonneg.
Qed.

(** ** Subsequences *)

Lemma subseq_nil_l {A : Type} (l : list A) : subseq [] l.
Proof. induction l; constructor; assumption. Qed.

Lemma subseq_refl {A : Type} (l : list A) : subseq l l.
Proof. induction l; constructor; assumption. Qed.

Lemma subseq_app {A : Type} (a b c d : list A) :
  subseq a b -> subseq c d -> subseq (a ++ c) (b ++ d).
Proof. intros Hab Hcd. induction Hab; simpl; try constructor; assumption. Qed.

Lemma subseq_In {A : Type} (a b : list A) (x : A) : subseq a b -> In x a -> In x b.
Proof. intros H. induction H; simpl; intuition. Qed.

Lemma subseq_map {A B : Type} (f : A -> B) (a b : list A) :
  subseq a b -> subseq (map f a) (map f b).
Proof. intros H. induction H; simpl; constructor; assumption. Qed.

Lemma subseq_NoDup {A : Type} (a b : list A) : subseq a b -> NoDup b -> NoDup a.
Proof.
  intros H. induction H as [|x l1 l2 H IH|x l1 l2 H IH]; intros Hnd.
  - constructor.
  - inversion Hnd; subst. apply IH. assumption.
  - inversion Hnd as [|y l Hnotin Hnd']; subst. constructor; [|apply IH; exact Hnd'].
    intros Hin. apply Hnotin. exact (subseq_In _ _ _ H Hin).
Qed.

Lemma subseq_StronglySorted {A : Type} (R : A -> A -> Prop) (a b : list A) :
  subseq a b -> StronglySorted R b -> StronglySorted R a.
Proof.
  intros H. induction H as [|x l1 l2 H IH|x l1 l2 H IH]; intros Hs.
  - constructor.
  - inversion Hs; subst. apply IH. assumption.
  - inversion Hs as [|y l Hs' Hall]; subst. constructor; [apply IH; exact Hs'|].
    rewrite Forall_forall in *. intros z Hz. apply Hall. exact (subseq_In _ _ _ H Hz).
Qed.

(** ** The order of the plan *)

Lemma line_day_keys (lines_df : list Lines.row) (w : list Schedule.row)
    (d : date) (l : Z) (st : alloc_state) :
  exists rows,
    snd (line_day lines_df w d l st) = snd st ++ rows /\
    subseq (map key rows) [(d, l)].
Proof.
  destruct st as [rem plan]. unfold line_day.
  destruct (filter (fun r => Lines.line_id r =? l) lines_df) as [|cap_row rest];
    [exists []; simpl; rewrite app_nil_r; split; [reflexivity | apply subseq_nil_l]|].
  cbv zeta.
  destruct (headroom (Lines.daily_capacity_cases cap_row) (todays_runs w l d)
            + flex_cases (todays_runs w l d) <=? 0);
    [exists []; simpl; rewrite app_nil_r; split; [reflexivity | apply subseq_nil_l]|].
  eexists. simpl. split; [reflexivity|]. simpl. apply subseq_refl.
Qed.

Lemma line_loop_keys (lines_df : list Lines.row) (w : list Schedule.row)
    (d : date) (ls : list Z) :
  forall st, exists rows,
    snd (line_loop lines_df w d ls st) = snd st ++ rows /\
    subseq (map key rows) (map (pair d) ls).
Proof.
  induction ls as [|l ls IH]; intros st; simpl.
  - exists []. rewrite app_nil_r. split; [reflexivity | constructor].
  - destruct (fst st <=? 0).
    + exists []. rewrite app_nil_r. split; [reflexivity | apply subseq_nil_l].
    + destruct (line_day_keys lines_df w d l st) as [rows1 [E1 S1]].
      destruct (IH (line_day lines_df w d l st)) as [rows2 [E2 S2]].
      exists (rows1 ++ rows2). rewrite E2, E1, app_assoc. split; [reflexivity|].
      rewrite map_app. exact (subseq_app _ _ _ _ S1 S2).
Qed.

Lemma date_loop_keys (lines_df : list Lines.row) (w : list Schedule.row)
    (capable : list Z) (ds : list date) :
  forall st, exists rows,
    snd (date_loop lines_df w capable ds st) = snd st ++ rows /\
    subseq (map key rows) (list_prod ds capable).
Proof.
  induction ds as [|d ds IH]; intros st; simpl.
  - exists []. rewrite app_nil_r. split; [reflexivity | constructor].
  - destruct (fst st <=? 0).
    + exists []. rewrite app_nil_r. split; [reflexivity | apply subseq_nil_l].
    + destruct (line_loop_keys lines_df w d capable st) as [rows1 [E1 S1]].
      destruct (IH (line_loop lines_df w d capable st)) as [rows2 [E2 S2]].
      exists (rows1 ++ rows2). rewrite E2, E1, app_assoc. split; [reflexivity|].
      rewrite map_app. exact (subseq_app _ _ _ _ S1 S2).
Qed.

Lemma allocate_keys (data : Data) (p extra_cases : Z) (due : date) :
  subseq (map key (snd (allocate data p extra_cases due))) (visited_line_days data p due).
Proof.
  unfold allocate, visited_line_days.
  destruct (date_loop_keys (lines data) (sched_window due (schedule data))
              (capable_lines (capability data) p)
              (window_dates (sched_window due (schedule data))) (extra_cases, []))
    as [rows [E S]].
  rewrite E. exact S.
Qed.

Lemma list_prod_NoDup {A B : Type} (l : list A) (l' : list B) :
  NoDup l -> NoDup l' -> NoDup (list_prod l l').
Proof.
  intros Hl Hl'. induction Hl as [|a l Hnotin Hl IH]; simpl; [constructor|].
  apply NoDup_app.
  - clear -Hl'. induction Hl' as [|b l' Hb Hl' IH']; simpl; constructor; [|exact IH'].
    intros Hin. apply in_map_iff in Hin. destruct Hin as [b' [E Hb']].
    inversion E; subst. exact (Hb Hb').
  - exact IH.
  - intros [x y] Hin1 Hin2. apply in_map_iff in Hin1. destruct Hin1 as [b [E _]].
    inversion E; subst. apply in_prod_iff in Hin2. tauto.
Qed.

Lemma same_date_prefix_sorted (d : date) (ls : list Z) (tail : list date) :
  StronglySorted Z.le tail -> Forall (Z.le d) tail ->
  StronglySorted Z.le (map (fun _ : Z => d) ls ++ tail).
Proof.
  intros Hs Hall. induction ls as [|l ls IH]; simpl; [exact Hs|].
  constructor; [exact IH|].
  apply Forall_app. split; [|exact Hall].
  rewrite Forall_forall. intros x Hx. apply in_map_iff in Hx.
  destruct Hx as [l' [<- _]]. lia.
Qed.

Lemma list_prod_dates_sorted (ds : list date) (ls : list Z) :
  StronglySorted Z.le ds -> StronglySorted Z.le (map fst (list_prod ds ls)).
Proof.
  intros Hs. induction Hs as [|d ds Hs IH Hall]; simpl; [constructor|].
  rewrite map_app, map_map. simpl.
  apply same_date_prefix_sorted; [exact IH|].
  rewrite Forall_forall in *. intros x Hx. apply in_map_iff in Hx.
  destruct Hx as [[d' l] [<- Hin]]. apply in_prod_iff in Hin. apply Hall. tauto.
Qed.

Lemma window_dates_sorted (w : list Schedule.row) : StronglySorted Z.le (window_dates w).
Proof.
  apply Sorted_StronglySorted; [exact Z.le_trans | apply sorted_Sorted].
Qed.

Lemma window_dates_NoDup (w : list Schedule.row) : NoDup (window_dates w).
Proof.
  unfold window_dates.
  exact (Permutation_NoDup (sorted_Permutation _) (unique_NoDup _)).
Qed.

Lemma capable_lines_NoDup (cap_df : list Capability.row) (p : Z) :
  NoDup (capable_lines cap_df p).
Proof. apply unique_NoDup. Qed.

(** Every row of the plan, described from the snapshot. *)
Lemma plan_row_shape (data : Data) (p extra_cases : Z) (due : date) (row : Plan.row) :
  In row (snd (allocate data p extra_cases due)) ->
  exists cap rem,
    line_capacity (lines data) (Plan.line_id row) = Some cap /\
    In (Plan.line_id row) (capable_lines (capability data) p) /\
    Plan.production_date row <= due /\
    0 < rem /\
    let runs := todays_runs (schedule data) (Plan.line_id row) (Plan.production_date row) in
    let h := headroom cap runs in
    0 < h + flex_cases runs /\
    Plan.allocated_cases row = Z.min (h + flex_cases runs) rem /\
    Plan.used_headroom row = Z.min h (Plan.allocated_cases row) /\
    Plan.bumped_flexible row = Z.max 0 (Plan.allocated_cases row - h).
Proof.
  intros Hin.
  destruct (allocate_inv data p extra_cases due) as [_ [Hrows _]].
  destruct (Hrows row Hin) as [d [l [rem [Hdin [Hl Hstep]]]]].
  apply window_dates_le in Hdin.
  destruct Hstep as [cap_row [rest [Hf Hstep]]]. cbv zeta in Hstep.
  rewrite (todays_runs_window due (schedule data) l d Hdin) in Hstep.
  destruct Hstep as [Hpos [Hrem ->]]. simpl.
  exists (Lines.daily_capacity_cases cap_row), rem.
  unfold line_capacity. rewrite Hf. repeat split; assumption.
Qed.

(** ** Full and partial rows *)

Section FullRows.

Variable lines_df : list Lines.row.
Variable w : list Schedule.row.

Local Abbreviation full :=
  (fun row : Plan.row =>
     Plan.allocated_cases row
     = line_day_capacity lines_df w (Plan.line_id row) (Plan.production_date row)).

Local Abbreviation full_but_last :=
  (fun st : alloc_state =>
     (0 < fst st -> Forall full (snd st)) /\
     (forall pre row, snd st = pre ++ [row] -> Forall full pre)).

Lemma line_day_full (d : date) (l : Z) (st : alloc_state) :
  0 < fst st -> full_but_last st -> full_but_last (line_day lines_df w d l st).
Proof.
  destruct st as [rem plan]. simpl. intros Hpos [Hall Hpre].
  unfold line_day.
  destruct (filter (fun r => Lines.line_id r =? l) lines_df) as [|cap_row rest] eqn:Ef;
    [split; assumption|].
  cbv zeta.
  destruct (headroom (Lines.daily_capacity_cases cap_row) (todays_runs w l d)
            + flex_cases (todays_runs w l d) <=? 0) eqn:Ep; [split; assumption|].
  apply Z.leb_gt in Ep. simpl. split.
  - intros Hleft. apply Forall_app. split; [exact (Hall Hpos)|].
    constructor; [|constructor]. simpl.
    unfold line_day_capacity, line_capacity. rewrite Ef. cbv zeta. lia.
  - intros pre row E. apply app_inj_tail in E. destruct E as [<- _]. exact (Hall Hpos).
Qed.

Lemma line_loop_full (d : date) (ls : list Z) :
  forall st, full_but_last st -> full_but_last (line_loop lines_df w d ls st).
Proof.
  induction ls as [|l ls IH]; intros st H; simpl; [exact H|].
  destruct (fst st <=? 0) eqn:E; [exact H|]. apply Z.leb_gt in E.
  apply IH. apply line_day_full; assumption.
Qed.

Lemma date_loop_full (capable : list Z) (ds : list date) :
  forall st, full_but_last st -> full_but_last (date_loop lines_df w capable ds st).
Proof.
  induction ds as [|d ds IH]; intros st H; simpl; [exact H|].
  destruct (fst st <=? 0); [exact H|].
  apply IH. apply line_loop_full. exact H.
Qed.

End FullRows.

(** ** The products of the scheduled runs are not read *)

Section Relabel.

Variable f : Schedule.row -> Z.

Lemma sched_window_relabel (due : date) (sch : list Schedule.row) :
  sched_window due (relabel_products f sch)
  = relabel_products f (sched_window due sch).
Proof. unfold sched_window, relabel_products. rewrite filter_map_swap. reflexivity. Qed.

Lemma window_dates_relabel (w : list Schedule.row) :
  window_dates (relabel_products f w) = window_dates w.
Proof. unfold window_dates, relabel_products. rewrite map_map. reflexivity. Qed.

Lemma todays_runs_relabel (w : list Schedule.row) (l : Z) (d : date) :
  todays_runs (relabel_products f w) l d = relabel_products f (todays_runs w l d).
Proof. unfold todays_runs, relabel_products. rewrite filter_map_swap. reflexivity. Qed.

Lemma total_planned_relabel (runs : list Schedule.row) :
  total_planned (relabel_products f runs) = total_planned runs.
Proof. unfold total_planned, relabel_products. rewrite map_map. reflexivity. Qed.

Lemma flex_cases_relabel (runs : list Schedule.row) :
  flex_cases (relabel_products f runs) = flex_cases runs.
Proof.
  unfold flex_cases, relabel_products. rewrite filter_map_swap, map_map. reflexivity.
Qed.

Lemma line_day_relabel (lines_df : list Lines.row) (w : list Schedule.row)
    (d : date) (l : Z) (st : alloc_state) :
  line_day lines_df (relabel_products f w) d l st = line_day lines_df w d l st.
Proof.
  unfold line_day, headroom.
  rewrite todays_runs_relabel, total_planned_relabel, flex_cases_relabel. reflexivity.
Qed.

Lemma line_loop_relabel (lines_df : list Lines.row) (w : list Schedule.row)
    (d : date) (ls : list Z) :
  forall st, line_loop lines_df (relabel_products f w) d ls st
             = line_loop lines_df w d ls st.
Proof.
  induction ls as [|l ls IH]; intros st; simpl; [reflexivity|].
  rewrite line_day_relabel, IH. reflexivity.
Qed.

Lemma date_loop_relabel (lines_df : list Lines.row) (w : list Schedule.row)
    (capable : list Z) (ds : list date) :
  forall st, date_loop lines_df (relabel_products f w) capable ds st
             = date_loop lines_df w capable ds st.
Proof.
  induction ds as [|d ds IH]; intros st; simpl; [reflexivity|].
  rewrite line_loop_relabel, IH. reflexivity.
Qed.

Lemma allocate_relabel (data : Data) (p extra_cases : Z) (due : date) :
  allocate (with_schedule data (relabel_products f (schedule data))) p extra_cases due
  = allocate data p extra_cases due.
Proof.
  unfold allocate. simpl.
  rewrite sched_window_relabel, window_dates_relabel, date_loop_relabel. reflexivity.
Qed.

End Relabel.

(** ** The message and the capacity note *)

Lemma compose_result_message (extra_cases : Z) (due : date) (st : alloc_state)
    (mat : list blocker) :
  let r := compose_result extra_cases due st mat in
  capacity_blockers r
  = (if 0 <? fst st then [ShortCases (fst st) due] else []) /\
  (can_fulfill r = true -> message r = Approved extra_cases due) /\
  (can_fulfill r = false ->
   message r
   = Bits ((if 0 <? extra_cases - fst st then [Cover (extra_cases - fst st) due] else [])
           ++ (if 0 <? fst st then [RemainingNeed (fst st)] else [])
           ++ (if is_empty mat then [] else [MaterialConstraints mat]))).
Proof.
  destruct st as [rem plan]. unfold compose_result. simpl.
  destruct ((rem <=? 0) && is_empty mat); simpl;
    (split; [reflexivity|]); split; intros H; try discriminate; reflexivity.
Qed.

(** ** Theorems on the result of [simulate_request] *)

Section LoopTheorems.

Variable to_datetime_date : string -> option date.

Local Abbreviation simulate := (simulate_request to_datetime_date).

(** X1 (the loop is exact).  For a request of a non-negative quantity whose
    due date parses, what is allocated is the smaller of the requested
    quantity and the total capacity of the visited line-days, and what
    remains is the excess of the request over that capacity. *)
Theorem simulate_request_allocates_min (p extra_cases : Z) (s : string)
    (data : Data) (due : date) :
  to_datetime_date s = Some due ->
  0 <= extra_cases ->
  exists r,
    simulate p extra_cases s data = Returned r /\
    allocated_total r = Z.min extra_cases (window_capacity data p due) /\
    remaining r = Z.max 0 (extra_cases - window_capacity data p due).
Proof.
  intros Hd Hnn.
  destruct (simulate_request_returns to_datetime_date p extra_cases s data due Hd)
    as [r [Hr [Hrem [_ [Htot _]]]]].
  exists r. split; [exact Hr|].
  rewrite Htot, Hrem, (allocate_remaining data p extra_cases due Hnn). lia.
Qed.

(** X2 (when a request is approved).  For a request of a non-negative
    quantity whose due date parses, [can_fulfill] is true exactly when the
    requested quantity is at most the capacity of the visited line-days and
    the material blocker list is empty. *)
Theorem simulate_request_approval (p extra_cases : Z) (s : string)
    (data : Data) (due : date) :
  to_datetime_date s = Some due ->
  0 <= extra_cases ->
  exists r,
    simulate p extra_cases s data = Returned r /\
    can_fulfill r
    = (extra_cases <=? window_capacity data p due) && is_empty (material_blockers r).
Proof.
  intros Hd Hnn.
  destruct (simulate_request_returns to_datetime_date p extra_cases s data due Hd)
    as [r [Hr [Hrem [_ [_ [Hno Hyes]]]]]].
  exists r. split; [exact Hr|].
  destruct (capable_lines (capability data) p) as [|l ls] eqn:E.
  - rewrite (Hno eq_refl). simpl. rewrite andb_false_r. reflexivity.
  - destruct Hyes as [_ Hc]; [discriminate|]. rewrite Hc. f_equal.
    rewrite Hrem, (allocate_remaining data p extra_cases due Hnn).
    destruct (extra_cases <=? window_capacity data p due) eqn:E1;
      [apply Z.leb_le in E1; apply Z.leb_le | apply Z.leb_gt in E1; apply Z.leb_gt]; lia.
Qed.

(** X3 (asking for more never yields less).  On the same snapshot and due
    date, a larger non-negative request is allocated at least as much as a
    smaller one, and leaves at least as much unplaced. *)
Theorem simulate_request_monotone (p extra1 extra2 : Z) (s : string)
    (data : Data) (due : date) :
  to_datetime_date s = Some due ->
  0 <= extra1 -> extra1 <= extra2 ->
  exists r1 r2,
    simulate p extra1 s data = Returned r1 /\
    simulate p extra2 s data = Returned r2 /\
    allocated_total r1 <= allocated_total r2 /\
    remaining r1 <= remaining r2.
Proof.
  intros Hd H1 H12.
  destruct (simulate_request_returns to_datetime_date p extra1 s data due Hd)
    as [r1 [Hr1 [Hrem1 [_ [Htot1 _]]]]].
  destruct (simulate_request_returns to_datetime_date p extra2 s data due Hd)
    as [r2 [Hr2 [Hrem2 [_ [Htot2 _]]]]].
  exists r1, r2. split; [exact Hr1|]. split; [exact Hr2|].
  rewrite Htot1, Htot2, Hrem1, Hrem2.
  rewrite (allocate_remaining data p extra1 due H1).
  rewrite (allocate_remaining data p extra2 due) by lia. lia.
Qed.


(** X5 (headroom first).  In every plan row the headroom used is the smaller
    of the line-day's headroom and the cases allocated, and the flexible
    cases bumped are the rest: flexible runs are bumped only once the whole
    headroom of the line-day is used. *)
Theorem simulate_request_headroom_first (p extra_cases : Z) (s : string)
    (data : Data) (due : date) :
  to_datetime_date s = Some due ->
  exists r,
    simulate p extra_cases s data = Returned r /\
    forall row, In row (plan_rows r) ->
      exists cap,
        line_capacity (lines data) (Plan.line_id row) = Some cap /\
        let h := headroom cap (todays_runs (schedule data) (Plan.line_id row)
                                 (Plan.production_date row)) in
        Plan.used_headroom row = Z.min h (Plan.allocated_cases row) /\
        Plan.bumped_flexible row = Z.max 0 (Plan.allocated_cases row - h) /\
        (0 < Plan.bumped_flexible row -> Plan.used_headroom row = h) /\
        (Plan.allocated_cases row <= h -> Plan.bumped_flexible row = 0).
Proof.
  intros Hd.
  destruct (simulate_request_returns to_datetime_date p extra_cases s data due Hd)
    as [r [Hr [_ [Hplan _]]]].
  exists r. split; [exact Hr|]. intros row Hin. rewrite Hplan in Hin.
  destruct (plan_row_shape data p extra_cases due row Hin)
    as [cap [rem [Hcap [_ [_ [_ Hshape]]]]]].
  cbv zeta in Hshape. destruct Hshape as [_ [_ [Hu Hb]]].
  exists cap. split; [exact Hcap|]. cbv zeta. lia.
Qed.


(** X7 (eligible lines only).  Every plan row is on a line that has a
    capability row for the requested product and a row in the lines table;
    a capable line that is missing from the lines table gets no row. *)
Theorem simulate_request_eligible_lines (p extra_cases : Z) (s : string)
    (data : Data) (due : date) :
  to_datetime_date s = Some due ->
  exists r,
    simulate p extra_cases s data = Returned r /\
    forall row, In row (plan_rows r) ->
      (exists c, In c (capability data) /\ Capability.product_id c = p /\
                 Capability.line_id c = Plan.line_id row) /\
      (exists l, In l (lines data) /\ Lines.line_id l = Plan.line_id row).
Proof.
  intros Hd.
  destruct (simulate_request_returns to_datetime_date p extra_cases s data due Hd)
    as [r [Hr [_ [Hplan _]]]].
  exists r. split; [exact Hr|]. intros row Hin. rewrite Hplan in Hin.
  destruct (plan_row_shape data p extra_cases due row Hin)
    as [cap [rem [Hcap [Hl _]]]].
  split; [apply capable_lines_In; exact Hl|].
  unfold line_capacity in Hcap.
  destruct (filter (fun r => Lines.line_id r =? Plan.line_id row) (lines data))
    as [|l0 rest] eqn:Ef; [discriminate|].
  assert (Hin0 : In l0 (filter (fun r => Lines.line_id r =? Plan.line_id row) (lines data)))
    by (rewrite Ef; simpl; tauto).
  apply filter_In in Hin0. destruct Hin0 as [Hin0 Hid]. apply Z.eqb_eq in Hid.
  exists l0. tauto.
Qed.

(** X8 (the products of the scheduled runs are not read).  Replacing the
    product of every scheduled run by any other product leaves the outcome
    unchanged: flexible runs of the requested product are bumped like those
    of any other product. *)
Theorem simulate_request_ignores_products (f : Schedule.row -> Z)
    (p extra_cases : Z) (s : string) (data : Data) :
  simulate p extra_cases s (with_schedule data (relabel_products f (schedule data)))
  = simulate p extra_cases s data.
Proof.
  unfold simulate_request. destruct (to_datetime_date s) as [due|]; [|reflexivity].
  rewrite allocate_relabel. reflexivity.
Qed.

(** X9 (verdict and message).  For a request of a non-negative quantity whose
    due date parses and whose product has a capable line: the capacity note
    is present exactly when something remains; an approved request has no
    blocker and a plan summing to the requested quantity; a request that is
    not approved gets a message of at least one clause, made of the covered
    quantity when positive, the remaining quantity when positive and the
    material constraints when there are any. *)
Theorem simulate_request_verdict_message (p extra_cases : Z) (s : string)
    (data : Data) (due : date) :
  to_datetime_date s = Some due ->
  (exists c, In c (capability data) /\ Capability.product_id c = p) ->
  0 <= extra_cases ->
  exists r,
    simulate p extra_cases s data = Returned r /\
    capacity_blockers r
    = (if 0 <? remaining r then [ShortCases (remaining r) due] else []) /\
    (can_fulfill r = true ->
       message r = Approved extra_cases due /\
       material_blockers r = [] /\ capacity_blockers r = [] /\
       Zsum (map Plan.allocated_cases (plan_rows r)) = extra_cases) /\
    (can_fulfill r = false ->
       exists bits,
         message r = Bits bits /\ bits <> [] /\
         bits = (if 0 <? allocated_total r then [Cover (allocated_total r) due] else [])
                ++ (if 0 <? remaining r then [RemainingNeed (remaining r)] else [])
                ++ (if is_empty (material_blockers r) then []
                    else [MaterialConstraints (material_blockers r)])).
Proof.
  intros Hd Hcap Hnn.
  pose proof (simulate_request_capable to_datetime_date p extra_cases s data due Hd
                (capable_lines_some _ _ Hcap)) as Hr.
  destruct (allocate_inv data p extra_cases due) as [Hsum [_ Hpos]].
  specialize (Hpos Hnn).
  eexists. split; [exact Hr|].
  match goal with
  | |- context [compose_result ?e ?d ?st ?mat] =>
      pose proof (compose_result_fields e d st mat) as F;
      pose proof (compose_result_message e d st mat) as M;
      set (r := compose_result e d st mat) in *
  end.
  cbv zeta in F, M.
  destruct F as [Fa [Fr [Fp [Fm Fc]]]]. destruct M as [Mc [Ma Mb]].
  rewrite Fr. split; [exact Mc|]. split.
  - intros Hc. rewrite Hc in Fc. symmetry in Fc. apply andb_true_iff in Fc.
    destruct Fc as [Fc1 Fc2]. apply Z.leb_le in Fc1.
    split; [exact (Ma Hc)|]. split.
    + rewrite Fm. destruct (material_check _ _ _ _); [reflexivity|discriminate].
    + split.
      * rewrite Mc. destruct (0 <? fst (allocate data p extra_cases due)) eqn:E;
          [apply Z.ltb_lt in E; lia | reflexivity].
      * rewrite Fp. lia.
  - intros Hc. eexists. split; [exact (Mb Hc)|]. rewrite Fa, Fm. split; [|reflexivity].
    rewrite Hc in Fc. symmetry in Fc. apply andb_false_iff in Fc.
    destruct Fc as [Fc|Fc].
    + apply Z.leb_gt in Fc. apply Z.ltb_lt in Fc. rewrite Fc.
      intros E. apply app_eq_nil in E. destruct E as [_ E]. discriminate.
    + rewrite Fc. intros E. apply app_eq_nil in E. destruct E as [_ E].
      apply app_eq_nil in E. destruct E as [_ E]. discriminate.
Qed.

End LoopTheorems.

(** X10 (one inventory record per material).  When no material has two
    inventory records, the material check of a product that has BOM rows
    reports at most one blocker per BOM row, in BOM order: the row is
    reported when its need exceeds the on-hand stock of its material, need,
    comparison and difference being those of float64. *)
Theorem material_check_keyed (bom_df : list Bom.row) (inv_df : list Inventory.row)
    (p allocated : Z) :
  NoDup (map Inventory.material_id inv_df) ->
  sku_bom bom_df p <> [] ->
  material_check bom_df inv_df p allocated
  = flat_map (fun b =>
                let need := PrimFloat.mul (Bom.qty_per_case b) (float_of_Z allocated) in
                if PrimFloat.ltb (on_hand inv_df (Bom.material_id b)) need
                then [ShortBy (Bom.material_name b)
                        (PrimFloat.sub need (on_hand inv_df (Bom.material_id b)))
                        (Bom.supplier_lead_time_days b)]
                else [])
             (sku_bom bom_df p) /\
  (List.length (material_check bom_df inv_df p allocated)
   <= List.length (sku_bom bom_df p))%nat.
Proof.
  intros Hnd Hne. unfold material_check.
  destruct (sku_bom bom_df p) as [|b0 rows] eqn:E; [congruence|].
  assert (Heq : forall l, flat_map (check_bom_row inv_df allocated) l
                = flat_map (fun b =>
                    let need := PrimFloat.mul (Bom.qty_per_case b) (float_of_Z allocated) in
                    if PrimFloat.ltb (on_hand inv_df (Bom.material_id b)) need
                    then [ShortBy (Bom.material_name b)
                            (PrimFloat.sub need (on_hand inv_df (Bom.material_id b)))
                            (Bom.supplier_lead_time_days b)]
                    else []) l).
  { intros l. apply flat_map_ext. intros b. apply check_bom_row_keyed. exact Hnd. }
  split; [apply Heq|]. rewrite Heq.
  generalize (b0 :: rows). intros l. induction l as [|b l IH]; [simpl; lia|].
  cbn [flat_map List.length]. rewrite length_app. cbv zeta in IH |- *.
  destruct (PrimFloat.ltb (on_hand inv_df (Bom.material_id b))
              (PrimFloat.mul (Bom.qty_per_case b) (float_of_Z allocated)));
    cbn [List.length]; lia.
Qed.

(** * The Gantt figure *)

Lemma fold_min_spec (l : list Z) :
  forall d0, In (fold_left Z.min l d0) (d0 :: l) /\
             forall x, In x (d0 :: l) -> fold_left Z.min l d0 <= x.
Proof.
  induction l as [|a l IH]; intros d0; simpl.
  - split; [tauto|]. intros x [<-|[]]. lia.
  - destruct (IH (Z.min d0 a)) as [Hin Hle]. simpl in Hin. split.
    + destruct Hin as [Hin|Hin]; [|tauto].
      rewrite <- Hin. destruct (Z.min_spec d0 a) as [[_ ->]|[_ ->]]; tauto.
    + intros x Hx.
      assert (Hm : fold_left Z.min l (Z.min d0 a) <= Z.min d0 a) by (apply Hle; simpl; tauto).
      destruct Hx as [<-|[<-|Hx]]; [lia | lia | apply Hle; simpl; tauto].
Qed.

Lemma unique_str_In (x : string) (l : list string) : In x (unique_str l) <-> In x l.
Proof.
  induction l as [|a l IH]; simpl; [tauto|].
  rewrite filter_In, IH, negb_true_iff, String.eqb_neq.
  destruct (string_dec a x) as [->|Hne]; [tauto|].
  split; [tauto|]. intros [H|H]; [tauto|]. right. split; [exact H|congruence].
Qed.

Lemma unique_str_NoDup (l : list string) : NoDup (unique_str l).
Proof.
  induction l as [|a l IH]; simpl; constructor.
  - rewrite filter_In, negb_true_iff, String.eqb_neq. tauto.
  - apply NoDup_filter. exact IH.
Qed.

Lemma insert_desc_Permutation (x : string) (l : list string) :
  Permutation (x :: l) (insert_desc x l).
Proof.
  induction l as [|a l IH]; simpl; [reflexivity|].
  destruct (String.leb a x); [reflexivity|].
  rewrite perm_swap. constructor. exact IH.
Qed.

Lemma sorted_reverse_Permutation (l : list string) : Permutation l (sorted_reverse l).
Proof.
  induction l as [|a l IH]; simpl; [constructor|].
  rewrite <- insert_desc_Permutation. constructor. exact IH.
Qed.

Lemma insert_desc_Sorted (x : string) (l : list string) :
  Sorted (fun a b => String.leb b a = true) l ->
  Sorted (fun a b => String.leb b a = true) (insert_desc x l).
Proof.
  induction l as [|a l IH]; simpl; intros H.
  - repeat constructor.
  - destruct (String.leb a x) eqn:E.
    + constructor; [exact H | constructor; exact E].
    + assert (Hxa : String.leb x a = true)
        by (destruct (String.leb_total a x) as [H'|H']; [congruence | exact H']).
      inversion H as [|a' l' Hs Hhd]; subst.
      constructor; [apply IH; exact Hs|].
      destruct l as [|b l]; simpl; [constructor; exact Hxa|].
      destruct (String.leb b x); constructor; [exact Hxa|].
      inversion Hhd; subst. assumption.
Qed.

Lemma sorted_reverse_Sorted (l : list string) :
  Sorted (fun a b => String.leb b a = true) (sorted_reverse l).
Proof.
  induction l as [|a l IH]; simpl; [constructor|].
  apply insert_desc_Sorted. exact IH.
Qed.

(** The rows within nine days of the earliest date are never all filtered
    out: the earliest row is one of them. *)
Lemma gantt_horizon_nonempty (row0 : Gantt.row) (rest : list Gantt.row) :
  filter (fun r => Gantt.production_date r
                   <=? fold_left Z.min (map Gantt.production_date rest)
                         (Gantt.production_date row0) + 9)
         (row0 :: rest) <> [].
Proof.
  destruct (fold_min_spec (map Gantt.production_date rest) (Gantt.production_date row0))
    as [Hin _].
  change (Gantt.production_date row0 :: map Gantt.production_date rest)
    with (map Gantt.production_date (row0 :: rest)) in Hin.
  apply in_map_iff in Hin. destruct Hin as [r [Hr Hin]].
  intros E.
  assert (Hf : In r (filter (fun r => Gantt.production_date r
                     <=? fold_left Z.min (map Gantt.production_date rest)
                           (Gantt.production_date row0) + 9) (row0 :: rest)))
    by (apply filter_In; split; [exact Hin | apply Z.leb_le; lia]).
  rewrite E in Hf. exact Hf.
Qed.

(** X11 (no figure only for an empty frame).  [build_gantt_figure] returns
    [None] exactly when the schedule frame has no row: the second emptiness
    test, after the ten-day filter, never fires. *)
Theorem build_gantt_figure_none (schedule_df : list Gantt.row) :
  build_gantt_figure schedule_df = None <-> schedule_df = [].
Proof.
  split; [|intros ->; reflexivity].
  destruct schedule_df as [|row0 rest]; [reflexivity|]. intros H. exfalso.
  unfold build_gantt_figure in H. cbv zeta in H.
  pose proof (gantt_horizon_nonempty row0 rest) as Hne.
  destruct (filter _ (row0 :: rest)); [congruence|discriminate].
Qed.



(** * The inventory endpoint *)

Lemma get_inventory_loop_spec (rows : list InventoryApi.db_row) :
  forall result,
    ((exists r, In r rows /\ InventoryApi.row_on_hand_qty r = None) /\
     get_inventory_loop rows result = TypeErrorRaised) \/
    ((forall r, In r rows -> InventoryApi.row_on_hand_qty r <> None) /\
     exists items,
       get_inventory_loop rows result = ApiReturned (result ++ items) /\
       Forall2 (fun row item =>
                  InventoryApi.material_id item = InventoryApi.row_material_id row /\
                  InventoryApi.material_name item = InventoryApi.row_material_name row /\
                  InventoryApi.uom item = InventoryApi.row_uom row /\
                  InventoryApi.supplier_lead_time_days item
                  = InventoryApi.row_lead_time_days row /\
                  InventoryApi.row_on_hand_qty row = Some (InventoryApi.on_hand_qty item))
               rows items).
Proof.
  induction rows as [|row rows IH]; intros result; simpl.
  - right. split; [intros r []|]. exists []. rewrite app_nil_r. split; [reflexivity|constructor].
  - destruct (InventoryApi.row_on_hand_qty row) as [q|] eqn:E.
    + destruct (IH (result ++ [InventoryApi.mk_item (InventoryApi.row_material_id row)
                                 (InventoryApi.row_material_name row)
                                 (InventoryApi.row_uom row)
                                 (InventoryApi.row_lead_time_days row) q]))
        as [[[r [Hr Hnull]] Herr] | [Hall [items [Hok HF]]]].
      * left. split; [exists r; tauto | exact Herr].
      * right. split.
        -- intros r [<-|Hr]; [congruence | apply Hall; exact Hr].
        -- eexists. rewrite Hok, <- app_assoc. split; [reflexivity|].
           constructor; [simpl; repeat split; exact E | exact HF].
    + left. split; [exists row; tauto | reflexivity].
Qed.


(** * Instances of the further properties *)

Lemma simulate_request_allocates_min_witness :
  iso_date "2025-01-03" = Some day1 /\ 0 <= 12000 /\
  exists r,
    simulate_request iso_date 1 12000 "2025-01-03" demo = Returned r /\
    allocated_total r = Z.min 12000 (window_capacity demo 1 day1) /\
    remaining r = Z.max 0 (12000 - window_capacity demo 1 day1).
Proof.
  split; [reflexivity|]. split; [lia|].
  apply (simulate_request_allocates_min iso_date 1 12000 "2025-01-03" demo day1);
    [reflexivity | lia].
Defined.

Lemma simulate_request_approval_witness :
  iso_date "2025-01-03" = Some day1 /\ 0 <= 8000 /\
  exists r,
    simulate_request iso_date 1 8000 "2025-01-03" demo = Returned r /\
    can_fulfill r
    = (8000 <=? window_capacity demo 1 day1) && is_empty (material_blockers r).
Proof.
  split; [reflexivity|]. split; [lia|].
  apply (simulate_request_approval iso_date 1 8000 "2025-01-03" demo day1);
    [reflexivity | lia].
Defined.

Lemma simulate_request_monotone_witness :
  iso_date "2025-01-03" = Some day1 /\ 0 <= 8000 /\ 8000 <= 12000 /\
  exists r1 r2,
    simulate_request iso_date 1 8000 "2025-01-03" demo = Returned r1 /\
    simulate_request iso_date 1 12000 "2025-01-03" demo = Returned r2 /\
    allocated_total r1 <= allocated_total r2 /\
    remaining r1 <= remaining r2.
Proof.
  split; [reflexivity|]. split; [lia|]. split; [lia|].
  apply (simulate_request_monotone iso_date 1 8000 12000 "2025-01-03" demo day1);
    [reflexivity | lia | lia].
Defined.


Lemma simulate_request_headroom_first_witness :
  iso_date "2025-01-03" = Some day1 /\
  exists r,
    simulate_request iso_date 1 8000 "2025-01-03" demo = Returned r /\
    forall row, In row (plan_rows r) ->
      exists cap,
        line_capacity (lines demo) (Plan.line_id row) = Some cap /\
        let h := headroom cap (todays_runs (schedule demo) (Plan.line_id row)
                                 (Plan.production_date row)) in
        Plan.used_headroom row = Z.min h (Plan.allocated_cases row) /\
        Plan.bumped_flexible row = Z.max 0 (Plan.allocated_cases row - h) /\
        (0 < Plan.bumped_flexible row -> Plan.used_headroom row = h) /\
        (Plan.allocated_cases row <= h -> Plan.bumped_flexible row = 0).
Proof.
  split; [reflexivity|].
  apply (simulate_request_headroom_first iso_date 1 8000 "2025-01-03" demo day1).
  reflexivity.
Defined.


Lemma simulate_request_eligible_lines_witness :
  iso_date "2025-01-03" = Some day1 /\
  exists r,
    simulate_request iso_date 1 8000 "2025-01-03" demo = Returned r /\
    forall row, In row (plan_rows r) ->
      (exists c, In c (capability demo) /\ Capability.product_id c = 1 /\
                 Capability.line_id c = Plan.line_id row) /\
      (exists l, In l (lines demo) /\ Lines.line_id l = Plan.line_id row).
Proof.
  split; [reflexivity|].
  apply (simulate_request_eligible_lines iso_date 1 8000 "2025-01-03" demo day1).
  reflexivity.
Defined.

Lemma simulate_request_verdict_message_witness :
  iso_date "2025-01-03" = Some day1 /\
  (exists c, In c (capability demo) /\ Capability.product_id c = 1) /\
  0 <= 12000 /\
  exists r,
    simulate_request iso_date 1 12000 "2025-01-03" demo = Returned r /\
    capacity_blockers r
    = (if 0 <? remaining r then [ShortCases (remaining r) day1] else []) /\
    (can_fulfill r = true ->
       message r = Approved 12000 day1 /\
       material_blockers r = [] /\ capacity_blockers r = [] /\
       Zsum (map Plan.allocated_cases (plan_rows r)) = 12000) /\
    (can_fulfill r = false ->
       exists bits,
         message r = Bits bits /\ bits <> [] /\
         bits = (if 0 <? allocated_total r then [Cover (allocated_total r) day1] else [])
                ++ (if 0 <? remaining r then [RemainingNeed (remaining r)] else [])
                ++ (if is_empty (material_blockers r) then []
                    else [MaterialConstraints (material_blockers r)])).
Proof.
  assert (Hc : exists c, In c (capability demo) /\ Capability.product_id c = 1)
    by (eexists; split; [left; reflexivity | reflexivity]).
  split; [reflexivity|]. split; [exact Hc|]. split; [lia|].
  apply (simulate_request_verdict_message iso_date 1 12000 "2025-01-03" demo day1);
    [reflexivity | exact Hc | lia].
Defined.

Lemma material_check_keyed_witness :
  NoDup (map Inventory.material_id (inventory demo_short)) /\
  sku_bom (bom demo_short) 1 <> [] /\
  material_check (bom demo_short) (inventory demo_short) 1 1600
  = flat_map (fun b =>
                let need := PrimFloat.mul (Bom.qty_per_case b) (float_of_Z 1600) in
                if PrimFloat.ltb (on_hand (inventory demo_short) (Bom.material_id b)) need
                then [ShortBy (Bom.material_name b)
                        (PrimFloat.sub need
                           (on_hand (inventory demo_short) (Bom.material_id b)))
                        (Bom.supplier_lead_time_days b)]
                else [])
             (sku_bom (bom demo_short) 1) /\
  (List.length (material_check (bom demo_short) (inventory demo_short) 1 1600)
   <= List.length (sku_bom (bom demo_short) 1))%nat.
Proof.
  assert (Hnd : NoDup (map Inventory.material_id (inventory demo_short)))
    by (simpl; constructor; [intros [] | constructor]).
  assert (Hne : sku_bom (bom demo_short) 1 <> []) by (simpl; discriminate).
  split; [exact Hnd|]. split; [exact Hne|].
  apply (material_check_keyed (bom demo_short) (inventory demo_short) 1 1600 Hnd Hne).
Defined.


